(** * Sensor Data API: ingestion and query handlers

    Shallow embedding of [app_main.py] and [main.py]: two FastAPI modules
    that store sensor readings in one MongoDB collection and read them
    back.  The development has four layers:

    - [Binary64]: the Python [float] arithmetic the handlers perform on
      timestamps ([/], [*], [math.modf], [round], [int]), as correctly
      rounded operations on rationals;
    - [Datetime]: [datetime.utcfromtimestamp], [timedelta.total_seconds]
      and the BSON date encoding, on microsecond counts;
    - the runtime: Python values and dictionaries, exceptions, the
      collection, a state-and-exception monad, and the driver calls
      ([insert_one], [find], [sort], [limit], [to_list]);
    - [AppMain] and [Main]: the handlers of the two modules, and the
      FastAPI layer that turns a handler outcome into a response.

    Requests are run one at a time against a [world]: the collection,
    the driver's [ObjectId] generator and the fate of the coming
    exchanges with the server.  Strings are byte strings (the UTF-8
    text of a Python [str]). *)

From Stdlib Require Import ZArith QArith Qround Qabs Qpower Lia Lqa Sorted Permutation Ascii.
From Stdlib Require Import Floats.PrimFloat Floats.FloatOps Floats.SpecFloat.
From stdpp Require Import gmap strings list fin_maps sorting pretty.

(** * Binary64 arithmetic on rationals *)

(** A finite Python [float] is a rational of the form [m * 2^e] with
    [|m| < 2^53].  Every operation below computes the exact rational
    result and rounds it to the nearest such value, ties to even, as IEEE
    754 prescribes.  The exponent is unbounded: the model has neither
    overflow nor subnormals.  Overflow only happens beyond [1.8e308]
    and subnormals only below [2.3e-308]; the handlers reach neither
    with a value that survives the range check of
    [datetime.utcfromtimestamp]. *)
Module Binary64.
Local Open Scope Q_scope.

(** [round(x)] on a float: nearest integer, ties to the even one. *)
Definition round_half_even (x : Q) : Z :=
  let f := Qfloor x in
  match (x - inject_Z f ?= 1 # 2)%Q with
  | Lt => f
  | Gt => (f + 1)%Z
  | Eq => if Z.even f then f else (f + 1)%Z
  end.

(** [ilog2 x] is the integer [k] with [2^k <= x < 2^(k+1)], for [x > 0]. *)
Definition ilog2 (x : Q) : Z :=
  let k := (Z.log2 (Qnum x) - Z.log2 (Zpos (Qden x)))%Z in
  if Qle_bool (2 ^ k) x then k else (k - 1)%Z.

(** Rounding of a positive rational to 53 significant bits. *)
Definition RNpos (x : Q) : Q :=
  let s := (ilog2 x - 52)%Z in
  inject_Z (round_half_even (x / 2 ^ s)) * 2 ^ s.

(** Round to nearest binary64, sign and magnitude. *)
Definition RN (x : Q) : Q :=
  match x ?= 0 with
  | Eq => 0
  | Gt => RNpos x
  | Lt => - RNpos (- x)
  end.

(** [a / b] on Python ints: the correctly rounded quotient. *)
Definition truediv (a b : Z) : Q := RN (inject_Z a / inject_Z b).

(** [x * y] on floats. *)
Definition fmul (x y : Q) : Q := RN (x * y).

(** [int(x)]: truncation toward zero. *)
Definition trunc (x : Q) : Z := Z.quot (Qnum x) (Zpos (Qden x)).

(** [math.modf(x)]: fractional and integral part, both with the sign of
    [x]; the fractional part of a float is a float, so no rounding. *)
Definition modf (x : Q) : Q * Z := (x - inject_Z (trunc x), trunc x).

(** The value of a kernel binary64 number, for comparing the model
    with the machine's arithmetic. *)
Definition Q_of_float (f : float) : option Q :=
  match Prim2SF f with
  | S754_zero _ => Some 0
  | S754_finite s m e =>
      Some ((if s then - inject_Z (Zpos m) else inject_Z (Zpos m)) * 2 ^ e)
  | _ => None
  end.

Definition same_value (f : float) (x : Q) : bool :=
  match Q_of_float f with
  | Some y => Qeq_bool y x
  | None => false
  end.

End Binary64.

(** * Datetimes *)

(** A naive [datetime] is the number of microseconds between
    1970-01-01T00:00:00 and the instant it names; the calendar fields of
    the Python object are a bijective rendering of that count.  A
    [timedelta] is a number of microseconds as well. *)
Module Datetime.
Import Binary64.
Local Open Scope Z_scope.

(** [datetime.min] is 0001-01-01T00:00:00 and [datetime.max] is
    9999-12-31T23:59:59.999999. *)
Definition MIN_US : Z := -62135596800 * 1000000.
Definition MAX_US : Z := 253402300799 * 1000000 + 999999.

(** [datetime(1970, 1, 1)]. *)
Definition epoch : Z := 0.

(** [datetime.utcfromtimestamp(x)] for a float [x]:
<<
    frac, t = math.modf(x)
    us = round(frac * 1e6)
    if us >= 1000000: t += 1; us -= 1000000
    elif us < 0:      t -= 1; us += 1000000
>>
    and then the calendar conversion, which raises when the year falls
    outside 1..9999 ([None] here). *)
Definition utcfromtimestamp (x : Q) : option Z :=
  let '(frac, t) := modf x in
  let us := round_half_even (fmul frac (inject_Z 1000000)) in
  let '(t, us) :=
    if 1000000 <=? us then (t + 1, us - 1000000)
    else if us <? 0 then (t - 1, us + 1000000)
    else (t, us) in
  let total := t * 1000000 + us in
  if (MIN_US <=? total) && (total <=? MAX_US) then Some total else None.

(** [dt - epoch], a timedelta. *)
Definition sub (dt e : Z) : Z := dt - e.

(** [td.total_seconds()], which is [microseconds / 10**6] on ints. *)
Definition total_seconds (td : Z) : Q := truediv td (10 ^ 6).

(** A BSON date holds milliseconds: the driver writes
    [timegm(dt) * 1000 + dt.microsecond // 1000] and reads the same
    instant back, so a datetime that went through the collection has its
    microseconds floored to a multiple of 1000. *)
Definition bson_millis (dt : Z) : Z := dt / 1000.
Definition of_bson_millis (ms : Z) : Z := ms * 1000.
Definition bson_datetime (dt : Z) : Z := of_bson_millis (bson_millis dt).

(** The conversion the ingest handlers perform on [timestamp]. *)
Definition of_epoch_millis (t : Z) : option Z := utcfromtimestamp (truediv t 1000).

(** The conversion the query handler performs on a stored datetime:
    [int((dt - epoch).total_seconds() * 1000)]. *)
Definition to_epoch_millis (dt : Z) : Z :=
  trunc (fmul (total_seconds (sub dt epoch)) (inject_Z 1000)).

End Datetime.

(** * Python values, models and exceptions *)

Import Binary64.
Local Open Scope Z_scope.

(** The values that occur in the documents of this service.  A
    [datetime] is its microsecond count (see [Datetime]); an [ObjectId]
    is its 12 bytes read as a number. *)
#[warnings="-register-all"]
Inductive value :=
| VInt (n : Z)
| VFloat (x : float)
| VStr (s : string)
| VDatetime (dt : Z)
| VObjectId (oid : N)
| VDict (d : gmap string value).

(** The pydantic models.  Both modules declare the same classes;
    [main.py] has no [TrafficValues]. *)
Record TrafficValues := {
  peaton : Z; bicicleta : Z; carro : Z; moto : Z; bus : Z; camion : Z }.

Record EnvironmentalValues := {
  solarRadiationMax : Z; solarRadiationMin : Z; solarRadiationAvg : Z;
  uvIndexMax : float; uvIndexMin : float; uvIndexAvg : float;
  temperatureMax : float; temperatureMin : float; temperatureAvg : float;
  humidityMax : float; humidityMin : float; humidityAvg : float }.

Record WeatherValues := {
  rainTicks : float;
  windSpeedMax : Z; windSpeedMin : Z; windSpeedAvg : Z; windDirectionAvg : Z }.

Record AirQualityValues := {
  massPM2_5Max : float; massPM2_5Min : float; massPM2_5Avg : float;
  massPM10_0Max : float; massPM10_0Min : float; massPM10_0Avg : float;
  noiseMax : float; noiseMin : float; noiseAvg : float }.

(** [BaseModel.dict()] on a values model. *)
Class BaseModel (V : Type) := values_dict : V -> gmap string value.

#[export] Instance TrafficValues_model : BaseModel TrafficValues := fun v =>
  <["peaton" := VInt (peaton v)]> (<["bicicleta" := VInt (bicicleta v)]>
  (<["carro" := VInt (carro v)]> (<["moto" := VInt (moto v)]>
  (<["bus" := VInt (bus v)]> (<["camion" := VInt (camion v)]> ∅))))).

#[export] Instance EnvironmentalValues_model : BaseModel EnvironmentalValues := fun v =>
  <["solarRadiationMax" := VInt (solarRadiationMax v)]>
  (<["solarRadiationMin" := VInt (solarRadiationMin v)]>
  (<["solarRadiationAvg" := VInt (solarRadiationAvg v)]>
  (<["uvIndexMax" := VFloat (uvIndexMax v)]>
  (<["uvIndexMin" := VFloat (uvIndexMin v)]>
  (<["uvIndexAvg" := VFloat (uvIndexAvg v)]>
  (<["temperatureMax" := VFloat (temperatureMax v)]>
  (<["temperatureMin" := VFloat (temperatureMin v)]>
  (<["temperatureAvg" := VFloat (temperatureAvg v)]>
  (<["humidityMax" := VFloat (humidityMax v)]>
  (<["humidityMin" := VFloat (humidityMin v)]>
  (<["humidityAvg" := VFloat (humidityAvg v)]> ∅))))))))))).

#[export] Instance WeatherValues_model : BaseModel WeatherValues := fun v =>
  <["rainTicks" := VFloat (rainTicks v)]>
  (<["windSpeedMax" := VInt (windSpeedMax v)]>
  (<["windSpeedMin" := VInt (windSpeedMin v)]>
  (<["windSpeedAvg" := VInt (windSpeedAvg v)]>
  (<["windDirectionAvg" := VInt (windDirectionAvg v)]> ∅)))).

#[export] Instance AirQualityValues_model : BaseModel AirQualityValues := fun v =>
  <["massPM2_5Max" := VFloat (massPM2_5Max v)]>
  (<["massPM2_5Min" := VFloat (massPM2_5Min v)]>
  (<["massPM2_5Avg" := VFloat (massPM2_5Avg v)]>
  (<["massPM10_0Max" := VFloat (massPM10_0Max v)]>
  (<["massPM10_0Min" := VFloat (massPM10_0Min v)]>
  (<["massPM10_0Avg" := VFloat (massPM10_0Avg v)]>
  (<["noiseMax" := VFloat (noiseMax v)]>
  (<["noiseMin" := VFloat (noiseMin v)]>
  (<["noiseAvg" := VFloat (noiseAvg v)]> ∅)))))))).

(** [BaseSensorData] and its four subclasses, which add [values]. *)
Record SensorData (V : Type) := {
  deviceId : string;
  timestamp : Z;
  values : V }.
Arguments deviceId {V} _.
Arguments timestamp {V} _.
Arguments values {V} _.

Abbreviation TrafficData := (SensorData TrafficValues).
Abbreviation EnvironmentalData := (SensorData EnvironmentalValues).
Abbreviation WeatherData := (SensorData WeatherValues).
Abbreviation AirQualityData := (SensorData AirQualityValues).

(** [data.dict()]. *)
Definition dict {V} `{BaseModel V} (data : SensorData V) : gmap string value :=
  <["deviceId" := VStr (deviceId data)]>
  (<["timestamp" := VInt (timestamp data)]>
  (<["values" := VDict (values_dict (values data))]> ∅)).

(** The exceptions the handlers can meet. *)
Inductive exn :=
| HTTPException (status_code : Z) (detail : string)
| KeyError (key : string)
| TypeError (msg : string)
| ValueError (msg : string)
| OverflowError (msg : string)
| PyMongoError (msg : string).

Definition HTTP_200_OK : Z := 200.
Definition HTTP_201_CREATED : Z := 201.
Definition HTTP_404_NOT_FOUND : Z := 404.
Definition HTTP_500_INTERNAL_SERVER_ERROR : Z := 500.

(** [str(oid)] on an [ObjectId]: its 24 hexadecimal digits. *)
Definition hex_digit (n : N) : ascii :=
  match n with
  | 0 => "0" | 1 => "1" | 2 => "2" | 3 => "3" | 4 => "4" | 5 => "5"
  | 6 => "6" | 7 => "7" | 8 => "8" | 9 => "9" | 10 => "a" | 11 => "b"
  | 12 => "c" | 13 => "d" | 14 => "e" | _ => "f"
  end%N%char.

Fixpoint hex (digits : nat) (n : N) : string :=
  match digits with
  | O => EmptyString
  | S k => hex k (n / 16)%N +:+ String (hex_digit (n mod 16)%N) EmptyString
  end.

Definition str_ObjectId (oid : N) : string := hex 24 oid.

(** * The collection and the handler monad *)

(** The date a document holds under [timestamp], if it holds one. *)
Definition date_of (d : gmap string value) : option Z :=
  match d !! "timestamp" with
  | Some (VDatetime dt) => Some dt
  | _ => None
  end.

Definition not_earlier (a b : gmap string value) : Prop :=
  match date_of a, date_of b with
  | Some x, Some y => y <= x
  | _, _ => True
  end.

(** What the development takes from its surroundings without fixing it:
    how Python prints exceptions ([str_exn]) and the values other than
    strings and [ObjectId]s ([str_other]), and the order in which the
    server returns documents under [sort("timestamp", -1)].  The
    server sorts documents by BSON order; the class asks only for what
    that order says about two dates: the result is a permutation of the
    input and, of two neighbours that both hold a date, the first is not
    the earlier one.  Ties may come out in any order. *)
Class Platform := {
  str_exn : exn -> string;
  str_other : value -> string;
  sort_desc : list (gmap string value) -> list (gmap string value);
  sort_desc_perm : forall l, Permutation (sort_desc l) l;
  sort_desc_sorted : forall l, Sorted not_earlier (sort_desc l) }.

(** [str(v)]. *)
Definition str `{Platform} (v : value) : string :=
  match v with
  | VStr s => s
  | VObjectId oid => str_ObjectId oid
  | _ => str_other v
  end.

(** The state a request runs against: the documents of the collection in
    insertion order, the next [ObjectId] the driver generates, and the
    fate of the coming exchanges with the server ([Some msg]: that
    exchange fails with a driver error; past the end of the list every
    exchange succeeds). *)
Record world := {
  collection : list (gmap string value);
  next_oid : N;
  exchanges : list (option string) }.

Inductive result (A : Type) :=
| Return (a : A)
| Raise (e : exn).
Arguments Return {A} _.
Arguments Raise {A} _.

Definition M (A : Type) : Type := world -> result A * world.

Definition ret {A} (a : A) : M A := fun w => (Return a, w).
Definition raise {A} (e : exn) : M A := fun w => (Raise e, w).
Definition bind {A B} (m : M A) (k : A -> M B) : M B := fun w =>
  match m w with
  | (Return a, w') => k a w'
  | (Raise e, w') => (Raise e, w')
  end.

(** [try: body / except Exception as e: handler(e)]. *)
Definition try_except {A} (body : M A) (handler : exn -> M A) : M A := fun w =>
  match body w with
  | (Return a, w') => (Return a, w')
  | (Raise e, w') => handler e w'
  end.

#[export] Instance M_ret : MRet M := @ret.
#[export] Instance M_bind : MBind M := fun A B k m => bind m k.

(** A [for] loop that rewrites every element of a list, stopping at the
    first exception. *)
Fixpoint for_each {A B} (f : A -> M B) (l : list A) : M (list B) :=
  match l with
  | [] => ret []
  | x :: l' => y ← f x; ys ← for_each f l'; ret (y :: ys)
  end.

(** [d[key]]. *)
Definition getitem (d : gmap string value) (key : string) : M value :=
  match d !! key with
  | Some v => ret v
  | None => raise (KeyError key)
  end.

(** * The driver *)

(** One exchange with the server; the batches of one [to_list] count as
    one exchange.  A failed exchange leaves the collection as it was. *)
Definition exchange : M unit := fun w =>
  match exchanges w with
  | [] => (Return tt, w)
  | None :: rest =>
      (Return tt, {| collection := collection w; next_oid := next_oid w;
                     exchanges := rest |})
  | Some msg :: rest =>
      (Raise (PyMongoError msg),
       {| collection := collection w; next_oid := next_oid w;
          exchanges := rest |})
  end.

(** BSON has 32- and 64-bit integers only; encoding a larger [int]
    raises [OverflowError]. *)
Definition fits_int64 (n : Z) : bool := (- 2 ^ 63 <=? n) && (n <? 2 ^ 63).

Fixpoint bson_encodable (v : value) : bool :=
  match v with
  | VInt n => fits_int64 n
  | VDict d => map_fold (fun _ x acc => bson_encodable x && acc) true d
  | _ => true
  end.

(** What a value reads as once it has been through the collection. *)
Fixpoint bson_roundtrip (v : value) : value :=
  match v with
  | VDatetime dt => VDatetime (Datetime.bson_datetime dt)
  | VDict d => VDict (bson_roundtrip <$> d)
  | _ => v
  end.

(** The driver's [ObjectId] generator. *)
Definition fresh_oid : M N := fun w =>
  (Return (next_oid w),
   {| collection := collection w; next_oid := (next_oid w + 1)%N;
      exchanges := exchanges w |}).

(** The server appends a document to the collection. *)
Definition append_document (d : gmap string value) : M unit := fun w =>
  (Return tt,
   {| collection := collection w ++ [d]; next_oid := next_oid w;
      exchanges := exchanges w |}).

(** The documents of the collection. *)
Definition documents : M (list (gmap string value)) := fun w =>
  (Return (collection w), w).

(** [collection.insert_one(document)], for a document without [_id]
    (the handlers pass no other): the driver generates the [ObjectId],
    encodes the document and sends it. *)
Definition insert_one (document : gmap string value) : M unit :=
  oid ← fresh_oid;
  let document := <["_id" := VObjectId oid]> document in
  if bson_encodable (VDict document) then
    exchange;; append_document (bson_roundtrip <$> document)
  else raise (OverflowError "MongoDB can only handle up to 8-byte ints").

Module Motor.

(** A cursor is a query that has not run yet. *)
Record cursor := {
  filter_deviceId : string;
  sorted_desc : bool;
  limit_arg : Z }.

(** [collection.find({"deviceId": deviceId})]. *)
Definition find (deviceId : string) : cursor :=
  {| filter_deviceId := deviceId; sorted_desc := false; limit_arg := 0 |}.

(** [cursor.sort("timestamp", -1)]. *)
Definition sort (c : cursor) : cursor :=
  {| filter_deviceId := filter_deviceId c; sorted_desc := true;
     limit_arg := limit_arg c |}.

(** [cursor.limit(n)]. *)
Definition limit (c : cursor) (n : Z) : cursor :=
  {| filter_deviceId := filter_deviceId c; sorted_desc := sorted_desc c;
     limit_arg := n |}.

Definition matches (deviceId : string) (d : gmap string value) : bool :=
  match d !! "deviceId" with
  | Some (VStr s) => String.eqb s deviceId
  | _ => false
  end.

(** The documents a cursor stands for.  A limit of 0 is no limit; the
    server takes the absolute value of a negative one. *)
Definition run_cursor `{Platform} (c : cursor) (docs : list (gmap string value))
  : list (gmap string value) :=
  let found := List.filter (matches (filter_deviceId c)) docs in
  let ordered := if sorted_desc c then sort_desc found else found in
  if limit_arg c =? 0 then ordered
  else firstn (Z.to_nat (Z.abs (limit_arg c))) ordered.

(** [await cursor.to_list(length=n)]: a negative length is refused
    before anything is sent; otherwise at most [n] documents of the
    cursor are collected. *)
Definition to_list `{Platform} (c : cursor) (length : Z)
  : M (list (gmap string value)) :=
  if length <? 0 then raise (ValueError "length must be non-negative")
  else
    exchange;;
    docs ← documents;
    ret (firstn (Z.to_nat length) (run_cursor c docs)).

End Motor.

(** * FastAPI *)

(** The body of a response: the handler's return value, or the detail
    of the error. *)
Inductive content (A : Type) :=
| Body (a : A)
| Detail (d : string).
Arguments Body {A} _.
Arguments Detail {A} _.

Record response (A : Type) := {
  status : Z;
  body : content A }.
Arguments status {A} _.
Arguments body {A} _.

(** A route declared with [status_code]: the handler's return value is
    sent with that status, an [HTTPException] with its own, anything
    else as a bare 500. *)
Definition respond {A} (status_code : Z) (r : result A) : response A :=
  match r with
  | Return a => {| status := status_code; body := Body a |}
  | Raise (HTTPException s d) => {| status := s; body := Detail d |}
  | Raise _ =>
      {| status := HTTP_500_INTERNAL_SERVER_ERROR;
         body := Detail "Internal Server Error" |}
  end.

Definition serve {A} (status_code : Z) (handler : M A) (w : world)
  : response A * world :=
  let '(r, w') := handler w in (respond status_code r, w').


(** [v / n] on an [int] [v].  The handlers divide the [timestamp] of a
    model, an [int] by its declared type; other operands are refused. *)
Definition div_int (v : value) (n : Z) : M Q :=
  match v with
  | VInt a => ret (truediv a n)
  | _ => raise (TypeError "unsupported operand type(s) for /")
  end.

(** [datetime.utcfromtimestamp(x)]; out of range it raises [ValueError]
    ([OverflowError] or [OSError] for the largest arguments). *)
Definition utcfromtimestamp (x : Q) : M Z :=
  match Datetime.utcfromtimestamp x with
  | Some dt => ret dt
  | None => raise (ValueError "year is out of range")
  end.

(** [v - epoch]: defined on a datetime only. *)
Definition minus_epoch (v : value) : M Z :=
  match v with
  | VDatetime dt => ret (Datetime.sub dt Datetime.epoch)
  | _ => raise (TypeError "unsupported operand type(s) for -")
  end.

(** The acknowledgement every ingest handler returns. *)
Definition ack (deviceId : string) : gmap string value :=
  <["status" := VStr "success"]> (<["deviceId" := VStr deviceId]> ∅).

(** * app_main.py *)
Module AppMain.
Section Handlers.
Context `{Platform}.

Definition insert_sensor_data {V} `{BaseModel V}
    (data : SensorData V) (data_type : string) : M (gmap string value) :=
  let document := dict data in
  t ← getitem document "timestamp";
  x ← div_int t 1000;
  dt ← utcfromtimestamp x;
  let document :=
    <["data_type" := VStr data_type]> (<["timestamp" := VDatetime dt]> document) in
  insert_one document;;
  ret (ack (deviceId data)).

Definition receive_traffic_data (data : TrafficData) : M (gmap string value) :=
  try_except (insert_sensor_data data "traffic")
    (fun e => raise (HTTPException HTTP_500_INTERNAL_SERVER_ERROR (str_exn e))).

Definition receive_environmental_data (data : EnvironmentalData)
  : M (gmap string value) :=
  try_except (insert_sensor_data data "environmental")
    (fun e => raise (HTTPException HTTP_500_INTERNAL_SERVER_ERROR (str_exn e))).

Definition receive_weather_data (data : WeatherData) : M (gmap string value) :=
  try_except (insert_sensor_data data "weather")
    (fun e => raise (HTTPException HTTP_500_INTERNAL_SERVER_ERROR (str_exn e))).

Definition receive_airquality_data (data : AirQualityData)
  : M (gmap string value) :=
  try_except (insert_sensor_data data "air_quality")
    (fun e => raise (HTTPException HTTP_500_INTERNAL_SERVER_ERROR (str_exn e))).

(** The body of the loop of [get_device_data]. *)
Definition convert_item (item : gmap string value) : M (gmap string value) :=
  id ← getitem item "_id";
  let item := <["_id" := VStr (str id)]> item in
  dt ← getitem item "timestamp";
  td ← minus_epoch dt;
  ret (<["timestamp" :=
          VInt (trunc (fmul (Datetime.total_seconds td) (inject_Z 1000)))]> item).

(** The statements inside the [try] of [get_device_data]. *)
Definition get_device_data_body (deviceId : string) (limit : Z)
  : M (list (gmap string value)) :=
  let cursor := Motor.limit (Motor.sort (Motor.find deviceId)) limit in
  results ← Motor.to_list cursor limit;
  match results with
  | [] => raise (HTTPException HTTP_404_NOT_FOUND "Dispositivo no encontrado")
  | _ => for_each convert_item results
  end.

Definition get_device_data (deviceId : string) (limit : Z)
  : M (list (gmap string value)) :=
  try_except (get_device_data_body deviceId limit)
    (fun e => raise (HTTPException HTTP_500_INTERNAL_SERVER_ERROR (str_exn e))).

(** The routes: the POST routes declare [status_code=201], the GET route
    declares none, and [limit] is a query parameter with default 100. *)
Definition POST_traffic_data (data : TrafficData) :=
  serve HTTP_201_CREATED (receive_traffic_data data).
Definition POST_environmental_data (data : EnvironmentalData) :=
  serve HTTP_201_CREATED (receive_environmental_data data).
Definition POST_weather_data (data : WeatherData) :=
  serve HTTP_201_CREATED (receive_weather_data data).
Definition POST_airquality_data (data : AirQualityData) :=
  serve HTTP_201_CREATED (receive_airquality_data data).
Definition GET_data (deviceId : string) (limit : option Z) :=
  serve HTTP_200_OK (get_device_data deviceId (default 100 limit)).

End Handlers.
End AppMain.

(** * main.py *)
Module Main.
Section Handlers.
Context `{Platform}.

Definition receive_environmental_data (data : EnvironmentalData)
  : M (gmap string value) :=
  try_except
    (let document := dict data in
     t ← getitem document "timestamp";
     x ← div_int t 1000;
     dt ← utcfromtimestamp x;
     let document := <["timestamp" := VDatetime dt]> document in
     insert_one document;;
     ret (ack (deviceId data)))
    (fun e => raise (HTTPException 500 (str_exn e))).

Definition receive_weather_data (data : WeatherData) : M (gmap string value) :=
  try_except
    (let document := dict data in
     t ← getitem document "timestamp";
     x ← div_int t 1000;
     dt ← utcfromtimestamp x;
     let document := <["timestamp" := VDatetime dt]> document in
     insert_one document;;
     ret (ack (deviceId data)))
    (fun e => raise (HTTPException 500 (str_exn e))).

Definition receive_airquality_data (data : AirQualityData)
  : M (gmap string value) :=
  try_except
    (let document := dict data in
     t ← getitem document "timestamp";
     x ← div_int t 1000;
     dt ← utcfromtimestamp x;
     let document := <["timestamp" := VDatetime dt]> document in
     insert_one document;;
     ret (ack (deviceId data)))
    (fun e => raise (HTTPException 500 (str_exn e))).

(** The routes declare no [status_code]: FastAPI answers 200. *)
Definition POST_environmental_data (data : EnvironmentalData) :=
  serve HTTP_200_OK (receive_environmental_data data).
Definition POST_weather_data (data : WeatherData) :=
  serve HTTP_200_OK (receive_weather_data data).
Definition POST_airquality_data (data : AirQualityData) :=
  serve HTTP_200_OK (receive_airquality_data data).

End Handlers.
End Main.

(** * The statements the ingest handlers share *)

(** [insert_sensor_data] and the three handlers of [main.py] run the
    same statements, over any values model; [tag] is the [data_type]
    that [app_main.py] adds and [main.py] does not.  The lemmas
    [insert_sensor_data_ingest] and [main_receive_ingest] tie this text
    to the handlers. *)
Definition add_tag (tag : option string) (document : gmap string value)
  : gmap string value :=
  match tag with
  | Some data_type => <["data_type" := VStr data_type]> document
  | None => document
  end.

Definition ingest {V} `{BaseModel V} (tag : option string) (data : SensorData V)
  : M (gmap string value) :=
  let document := dict data in
  t ← getitem document "timestamp";
  x ← div_int t 1000;
  dt ← utcfromtimestamp x;
  let document := add_tag tag (<["timestamp" := VDatetime dt]> document) in
  insert_one document;;
  ret (ack (deviceId data)).

(** The document an ingest sends to the server and the one the
    collection then holds. *)
Definition sent_document {V} `{BaseModel V} (tag : option string)
    (data : SensorData V) (dt : Z) (oid : N) : gmap string value :=
  <["_id" := VObjectId oid]>
    (add_tag tag (<["timestamp" := VDatetime dt]> (dict data))).

Definition stored_document {V} `{BaseModel V} (tag : option string)
    (data : SensorData V) (dt : Z) (oid : N) : gmap string value :=
  bson_roundtrip <$> sent_document tag data dt oid.

(** The world once the driver has drawn an [ObjectId], used up one
    exchange and, if [new] is a document, stored it. *)
Definition after_insert (w : world) (new : option (gmap string value)) : world :=
  {| collection := collection w ++ option_list new;
     next_oid := (next_oid w + 1)%N;
     exchanges := tail (exchanges w) |}.

(** The [try]/[except] every handler is wrapped in. *)
Definition catch_all `{Platform} {A} (body : M A) : M A :=
  try_except body
    (fun e => raise (HTTPException HTTP_500_INTERNAL_SERVER_ERROR (str_exn e))).

(** How a POST request can end: answered with [code] and the
    acknowledgement, one document [d] stored; or answered 500, nothing
    stored. *)
Definition ingest_answered (code : Z) (dev : string) (w : world)
    (out : response (gmap string value) * world) : Prop :=
  (fst out = {| status := code; body := Body (ack dev) |} /\
   exists d, collection (snd out) = collection w ++ [d]) \/
  ((exists detail, fst out = {| status := 500; body := Detail detail |}) /\
   collection (snd out) = collection w).

(** The same, looking at the category of the stored document. *)
Definition ingest_tagged (data_type : string) (w : world)
    (out : response (gmap string value) * world) : Prop :=
  (status (fst out) = 201 /\
   exists d, collection (snd out) = collection w ++ [d] /\
             d !! "data_type" = Some (VStr data_type)) \/
  (status (fst out) = 500 /\ collection (snd out) = collection w).

(** The [timestamp] fields of the documents of the collection. *)
Definition stored_timestamps (w : world) : list (option value) :=
  (fun d : gmap string value => d !! "timestamp") <$> collection w.

(** Two runs that end the same way and leave the same dates stored. *)
Definition same_dates {A} (a b : result A * world) : Prop :=
  fst a = fst b /\ stored_timestamps (snd a) = stored_timestamps (snd b).

(** The documents the handler's cursor stands for. *)
Definition found `{Platform} (deviceId : string) (limit : Z) (w : world)
  : list (gmap string value) :=
  firstn (Z.to_nat limit)
    (Motor.run_cursor (Motor.limit (Motor.sort (Motor.find deviceId)) limit)
       (collection w)).

(** What the loop of [get_device_data] makes of a stored document:
    [_id] printed, the date turned into milliseconds, the rest kept. *)
Definition converted `{Platform} (doc item : gmap string value) : Prop :=
  exists id dt,
    doc !! "_id" = Some id /\
    doc !! "timestamp" = Some (VDatetime dt) /\
    item = <["timestamp" := VInt (Datetime.to_epoch_millis dt)]>
             (<["_id" := VStr (str id)]> doc).

(** The [timestamp] of a returned record, when it is an [int]. *)
Definition int_timestamp (item : gmap string value) : option Z :=
  match item !! "timestamp" with
  | Some (VInt t) => Some t
  | _ => None
  end.

(** Each element at least the next one; each element more than the
    next one. *)
Definition descending (ts : list Z) : Prop := Sorted (fun a b => b <= a) ts.
Definition strictly_descending (ts : list Z) : Prop := Sorted (fun a b => b < a) ts.

(** The records of a response, if it carries any. *)
Definition records {A} (a : response (list A)) : option (list A) :=
  match body a with
  | Body items => Some items
  | Detail _ => None
  end.

(** The two conversions in a row: what a timestamp reads as once it
    has been ingested, stored and queried. *)
Definition round_trip (t : Z) : option Z :=
  dt ← Datetime.of_epoch_millis t;
  Some (Datetime.to_epoch_millis (Datetime.bson_datetime dt)).

Definition has_records {A} (a : response (list A)) : bool :=
  match records a with
  | Some _ => true
  | None => false
  end.

(** A query whose records, at most [limit] of them, have timestamps
    each greater than the next. *)
Definition returns_strictly_descending `{Platform}
    (w : world) (deviceId : string) (limit : Z) : Prop :=
  forall items,
    records (fst (AppMain.GET_data deviceId (Some limit) w)) = Some items ->
    Z.of_nat (length items) <= limit /\
    exists ts, map int_timestamp items = map Some ts /\ strictly_descending ts.

(** * The service *)

(** One request to either module.  Both modules write to the same
    collection. *)
Inductive request :=
| AppPostTraffic (data : TrafficData)
| AppPostEnvironmental (data : EnvironmentalData)
| AppPostWeather (data : WeatherData)
| AppPostAirQuality (data : AirQualityData)
| AppGetData (deviceId : string) (limit : option Z)
| MainPostEnvironmental (data : EnvironmentalData)
| MainPostWeather (data : WeatherData)
| MainPostAirQuality (data : AirQualityData).

(** The status the request is answered with and the state it leaves. *)
Definition handle `{Platform} (r : request) (w : world) : Z * world :=
  match r with
  | AppPostTraffic data =>
      let '(a, w') := AppMain.POST_traffic_data data w in (status a, w')
  | AppPostEnvironmental data =>
      let '(a, w') := AppMain.POST_environmental_data data w in (status a, w')
  | AppPostWeather data =>
      let '(a, w') := AppMain.POST_weather_data data w in (status a, w')
  | AppPostAirQuality data =>
      let '(a, w') := AppMain.POST_airquality_data data w in (status a, w')
  | AppGetData deviceId limit =>
      let '(a, w') := AppMain.GET_data deviceId limit w in (status a, w')
  | MainPostEnvironmental data =>
      let '(a, w') := Main.POST_environmental_data data w in (status a, w')
  | MainPostWeather data =>
      let '(a, w') := Main.POST_weather_data data w in (status a, w')
  | MainPostAirQuality data =>
      let '(a, w') := Main.POST_airquality_data data w in (status a, w')
  end.

Fixpoint run `{Platform} (rs : list request) (w : world) : world :=
  match rs with
  | [] => w
  | r :: rs' => run rs' (snd (handle r w))
  end.

(** * A platform to run the handlers on *)

(** Dates first, latest first; documents without a date last. *)
Definition date_ge (a b : gmap string value) : Prop :=
  match date_of a, date_of b with
  | Some x, Some y => y <= x
  | Some _, None => True
  | None, Some _ => False
  | None, None => True
  end.

#[export] Instance date_ge_dec : RelDecision date_ge.
Proof.
  intros a b. unfold date_ge.
  destruct (date_of a), (date_of b); try (left; exact I); try (right; tauto).
  apply Z_le_dec.
Defined.

(** How Starlette and CPython print the exceptions of this model. *)
Definition reference_str_exn (e : exn) : string :=
  match e with
  | HTTPException s d => pretty s +:+ ": " +:+ d
  | KeyError k => "'" +:+ k +:+ "'"
  | TypeError m | ValueError m | OverflowError m | PyMongoError m => m
  end.

(** [str] of an [int]; the renderings of floats, dates and dictionaries
    are left out, no handler prints one. *)
Definition reference_str_other (v : value) : string :=
  match v with
  | VInt n => pretty n
  | _ => "?"
  end.

(** An empty collection and a server that answers every exchange. *)
Definition empty_world : world :=
  {| collection := []; next_oid := 0x65a1f2c84b7d3e0012ab34cd; exchanges := [] |}.

Definition sample_environmental (dev : string) (t : Z) : EnvironmentalData :=
  {| deviceId := dev; timestamp := t;
     values := {| solarRadiationMax := 900; solarRadiationMin := 100;
                  solarRadiationAvg := 500;
                  uvIndexMax := 7.5; uvIndexMin := 0.5; uvIndexAvg := 4;
                  temperatureMax := 31.5; temperatureMin := 18.25;
                  temperatureAvg := 24.5;
                  humidityMax := 80; humidityMin := 40; humidityAvg := 60.5 |} |}.

Definition sample_traffic (dev : string) (t : Z) : TrafficData :=
  {| deviceId := dev; timestamp := t;
     values := {| peaton := 12; bicicleta := 3; carro := 40; moto := 25;
                  bus := 2; camion := 1 |} |}.

Definition sample_weather (dev : string) (t : Z) : WeatherData :=
  {| deviceId := dev; timestamp := t;
     values := {| rainTicks := 0.5; windSpeedMax := 30; windSpeedMin := 2;
                  windSpeedAvg := 12; windDirectionAvg := 270 |} |}.

Definition sample_airquality (dev : string) (t : Z) : AirQualityData :=
  {| deviceId := dev; timestamp := t;
     values := {| massPM2_5Max := 35.5; massPM2_5Min := 5.25; massPM2_5Avg := 12.5;
                  massPM10_0Max := 50; massPM10_0Min := 10; massPM10_0Avg := 22.5;
                  noiseMax := 85; noiseMin := 40; noiseAvg := 62.5 |} |}.

(** * Properties *)

(** ** Rounding preserves order *)

Section Binary64_facts.
Import Binary64.
Local Open Scope Q_scope.

Lemma round_half_even_bounds x :
  (Qfloor x <= round_half_even x <= Qfloor x + 1)%Z.
Proof.
  unfold round_half_even.
  destruct (x - inject_Z (Qfloor x) ?= 1 # 2); [destruct (Z.even _)| |]; lia.
Qed.

Lemma round_half_even_Z (n : Z) : round_half_even (inject_Z n) = n.
Proof.
  unfold round_half_even. rewrite Qfloor_Z.
  replace (inject_Z n - inject_Z n ?= 1 # 2) with Lt; [reflexivity|].
  symmetry. apply Qlt_alt. ring_simplify (inject_Z n - inject_Z n). reflexivity.
Qed.

Lemma round_half_even_mono x y :
  x <= y -> (round_half_even x <= round_half_even y)%Z.
Proof.
  intros Hxy.
  pose proof (Qfloor_resp_le _ _ Hxy) as Hf.
  pose proof (round_half_even_bounds x) as Bx.
  pose proof (round_half_even_bounds y) as By.
  destruct (Z.eq_dec (Qfloor x) (Qfloor y)) as [E|NE]; [|lia].
  assert (Hr : x - inject_Z (Qfloor x) <= y - inject_Z (Qfloor y)).
  { rewrite E. apply Qplus_le_compat; [exact Hxy|apply Qle_refl]. }
  revert Hr. unfold round_half_even. rewrite <- E.
  generalize (x - inject_Z (Qfloor x)), (y - inject_Z (Qfloor x)). intros rx ry Hr.
  destruct (Qcompare_spec rx (1 # 2)) as [Ex|Lx|Gx];
    destruct (Qcompare_spec ry (1 # 2)) as [Ey|Ly|Gy];
    try destruct (Z.even (Qfloor x)); try lia.
  all: exfalso; lra.
Qed.

Lemma pow2_pos (e : Z) : 0 < 2 ^ e.
Proof. apply Qpower_0_lt. reflexivity. Qed.

Lemma pow2_add (a b : Z) : 2 ^ (a + b) == 2 ^ a * 2 ^ b.
Proof. apply Qpower_plus. discriminate. Qed.

Lemma pow2_le (a b : Z) : (a <= b)%Z -> 2 ^ a <= 2 ^ b.
Proof. intros. apply Qpower_le_compat_l; [assumption|discriminate]. Qed.

Lemma pow2_inject (e : Z) : (0 <= e)%Z -> inject_Z (2 ^ e) == 2 ^ e.
Proof. intros. apply (Zpower_Qpower 2 e). assumption. Qed.

(** A positive rational lies between the powers of two its numerator and
    denominator lie between. *)
Lemma log2_bracket (x : Q) :
  0 < x ->
  let k := (Z.log2 (Qnum x) - Z.log2 (Zpos (Qden x)))%Z in
  2 ^ (k - 1) < x /\ x < 2 ^ (k + 1).
Proof.
  intros Hx k.
  assert (Hn : (0 < Qnum x)%Z).
  { unfold Qlt in Hx. simpl in Hx. lia. }
  pose proof (Z.log2_spec _ Hn) as [Hn1 Hn2].
  pose proof (Z.log2_spec (Zpos (Qden x)) (Pos2Z.is_pos _)) as [Hd1 Hd2].
  pose proof (Z.log2_nonneg (Qnum x)) as Ln.
  pose proof (Z.log2_nonneg (Zpos (Qden x))) as Ld.
  set (ln := Z.log2 (Qnum x)) in *. set (ld := Z.log2 (Zpos (Qden x))) in *.
  assert (Hxd : x * inject_Z (Zpos (Qden x)) == inject_Z (Qnum x)).
  { destruct x as [n d]. unfold Qeq, Qmult, inject_Z. simpl. lia. }
  assert (Dpos : 0 < inject_Z (Zpos (Qden x))) by reflexivity.
  assert (Q1 : 2 ^ ln <= inject_Z (Qnum x)).
  { rewrite <- pow2_inject by lia. rewrite <- Zle_Qle. exact Hn1. }
  assert (Q2 : inject_Z (Qnum x) < 2 ^ (ln + 1)).
  { rewrite <- pow2_inject by lia. rewrite <- Zlt_Qlt. fold (Z.succ ln). exact Hn2. }
  assert (Q3 : 2 ^ ld <= inject_Z (Zpos (Qden x))).
  { rewrite <- pow2_inject by lia. rewrite <- Zle_Qle. exact Hd1. }
  assert (Q4 : inject_Z (Zpos (Qden x)) < 2 ^ (ld + 1)).
  { rewrite <- pow2_inject by lia. rewrite <- Zlt_Qlt. fold (Z.succ ld). exact Hd2. }
  split.
  - apply (Qmult_lt_r _ _ (inject_Z (Zpos (Qden x)))); [exact Dpos|].
    rewrite Hxd. eapply Qlt_le_trans; [|exact Q1].
    replace ln with ((k - 1) + (ld + 1))%Z by (unfold k; lia).
    rewrite pow2_add. apply Qmult_lt_l; [apply pow2_pos|exact Q4].
  - apply (Qmult_lt_r _ _ (inject_Z (Zpos (Qden x)))); [exact Dpos|].
    rewrite Hxd. eapply Qlt_le_trans; [exact Q2|].
    replace (ln + 1)%Z with ((k + 1) + ld)%Z by (unfold k; lia).
    rewrite pow2_add. apply Qmult_le_l; [apply pow2_pos|exact Q3].
Qed.

Lemma ilog2_spec (x : Q) :
  0 < x -> 2 ^ ilog2 x <= x /\ x < 2 ^ (ilog2 x + 1).
Proof.
  intros Hx. destruct (log2_bracket x Hx) as [Hlo Hhi]. unfold ilog2.
  set (k := (Z.log2 (Qnum x) - Z.log2 (Zpos (Qden x)))%Z) in *.
  destruct (Qle_bool (2 ^ k) x) eqn:E.
  - apply Qle_bool_iff in E. split; assumption.
  - split; [apply Qlt_le_weak; exact Hlo|].
    replace (k - 1 + 1)%Z with k by lia.
    apply Qnot_le_lt. intros Hle. apply Qle_bool_iff in Hle. congruence.
Qed.

Lemma ilog2_mono (x y : Q) : 0 < x -> x <= y -> (ilog2 x <= ilog2 y)%Z.
Proof.
  intros Hx Hxy.
  destruct (ilog2_spec x Hx) as [Hx1 _].
  destruct (ilog2_spec y) as [_ Hy2]; [eapply Qlt_le_trans; eauto|].
  assert (H : 2 ^ ilog2 x < 2 ^ (ilog2 y + 1)).
  { eapply Qle_lt_trans; [exact Hx1|]. eapply Qle_lt_trans; eauto. }
  apply Qpower_lt_compat_l_inv in H; [lia|reflexivity].
Qed.

Lemma RNpos_bounds (x : Q) :
  0 < x -> 2 ^ ilog2 x <= RNpos x /\ RNpos x <= 2 ^ (ilog2 x + 1).
Proof.
  intros Hx. destruct (ilog2_spec x Hx) as [Hlo Hhi]. unfold RNpos.
  set (s := (ilog2 x - 52)%Z).
  pose proof (pow2_pos s) as Hs.
  assert (L : inject_Z (2 ^ 52) <= x / 2 ^ s).
  { apply Qle_shift_div_l; [exact Hs|]. rewrite pow2_inject by lia.
    rewrite <- pow2_add. replace (52 + s)%Z with (ilog2 x) by (unfold s; lia).
    exact Hlo. }
  assert (U : x / 2 ^ s <= inject_Z (2 ^ 53)).
  { apply Qle_shift_div_r; [exact Hs|]. rewrite pow2_inject by lia.
    rewrite <- pow2_add. replace (53 + s)%Z with (ilog2 x + 1)%Z by (unfold s; lia).
    apply Qlt_le_weak. exact Hhi. }
  apply round_half_even_mono in L, U. rewrite round_half_even_Z in L, U.
  rewrite Zle_Qle in L, U. rewrite pow2_inject in L, U by lia.
  split.
  - replace (ilog2 x) with (52 + s)%Z at 1 by (unfold s; lia).
    rewrite pow2_add. apply Qmult_le_compat_r; [exact L|apply Qlt_le_weak, Hs].
  - replace (ilog2 x + 1)%Z with (53 + s)%Z by (unfold s; lia).
    rewrite pow2_add. apply Qmult_le_compat_r; [exact U|apply Qlt_le_weak, Hs].
Qed.

Lemma RNpos_pos (x : Q) : 0 < x -> 0 < RNpos x.
Proof.
  intros Hx. eapply Qlt_le_trans; [apply (pow2_pos (ilog2 x))|].
  apply RNpos_bounds. exact Hx.
Qed.

Lemma RNpos_mono (x y : Q) : 0 < x -> x <= y -> RNpos x <= RNpos y.
Proof.
  intros Hx Hxy.
  assert (Hy : 0 < y) by (eapply Qlt_le_trans; eauto).
  pose proof (ilog2_mono x y Hx Hxy) as Hi.
  destruct (Z.eq_dec (ilog2 x) (ilog2 y)) as [E|NE].
  - unfold RNpos. rewrite E. set (s := (ilog2 y - 52)%Z).
    pose proof (pow2_pos s) as Hs.
    apply Qmult_le_compat_r; [|apply Qlt_le_weak, Hs].
    rewrite <- Zle_Qle. apply round_half_even_mono.
    apply Qmult_le_compat_r; [exact Hxy|].
    apply Qlt_le_weak, Qinv_lt_0_compat, Hs.
  - destruct (RNpos_bounds x Hx) as [_ Ux]. destruct (RNpos_bounds y Hy) as [Ly _].
    eapply Qle_trans; [exact Ux|]. eapply Qle_trans; [|exact Ly].
    apply pow2_le. lia.
Qed.

(** Rounding to binary64 preserves order. *)
Lemma RN_mono (x y : Q) : x <= y -> RN x <= RN y.
Proof.
  intros Hxy. unfold RN.
  destruct (Qcompare_spec x 0) as [Ex|Lx|Gx];
    destruct (Qcompare_spec y 0) as [Ey|Ly|Gy]; try (exfalso; lra).
  - apply Qle_refl.
  - apply Qlt_le_weak, RNpos_pos, Gy.
  - assert (0 < RNpos (- x)) by (apply RNpos_pos; lra). lra.
  - assert (RNpos (- y) <= RNpos (- x)) by (apply RNpos_mono; lra). lra.
  - assert (0 < RNpos (- x)) by (apply RNpos_pos; lra).
    assert (0 < RNpos y) by (apply RNpos_pos; lra). lra.
  - apply RNpos_mono; assumption.
Qed.

Lemma trunc_mono (x y : Q) : x <= y -> (trunc x <= trunc y)%Z.
Proof.
  unfold Qle, trunc. destruct x as [a b], y as [c d]. simpl. intros H.
  rewrite <- (Z.quot_mul_cancel_r a (Zpos b) (Zpos d)) by lia.
  rewrite <- (Z.quot_mul_cancel_r c (Zpos d) (Zpos b)) by lia.
  rewrite (Z.mul_comm (Zpos d) (Zpos b)).
  apply Z.quot_le_mono; lia.
Qed.

Lemma truediv_mono (a b n : Z) : (0 < n)%Z -> (a <= b)%Z -> truediv a n <= truediv b n.
Proof.
  intros Hn Hab. apply RN_mono.
  apply Qmult_le_compat_r; [rewrite <- Zle_Qle; exact Hab|].
  apply Qlt_le_weak, Qinv_lt_0_compat. unfold Qlt. simpl. lia.
Qed.

Lemma fmul_mono_l (x y c : Q) : 0 <= c -> x <= y -> fmul x c <= fmul y c.
Proof. intros Hc Hxy. apply RN_mono. apply Qmult_le_compat_r; assumption. Qed.
End Binary64_facts.

(** ** The conversions of the handlers *)

Lemma to_epoch_millis_mono (a b : Z) :
  a <= b -> Datetime.to_epoch_millis a <= Datetime.to_epoch_millis b.
Proof.
  intros Hab. unfold Datetime.to_epoch_millis, Datetime.total_seconds, Datetime.sub.
  apply trunc_mono, fmul_mono_l; [discriminate|].
  apply truediv_mono; [reflexivity|lia].
Qed.

(** ** Values that need no rounding *)

Section Exact_facts.
Import Binary64.
Local Open Scope Q_scope.

Lemma round_half_even_compat (x y : Q) :
  x == y -> round_half_even x = round_half_even y.
Proof.
  intros E. apply Z.le_antisymm; apply round_half_even_mono; rewrite E; apply Qle_refl.
Qed.

Lemma RN_compat (x y : Q) : x == y -> RN x == RN y.
Proof.
  intros E. apply Qle_antisym; apply RN_mono; rewrite E; apply Qle_refl.
Qed.

Lemma trunc_Z (x : Q) (n : Z) : x == inject_Z n -> trunc x = n.
Proof.
  intros E. assert (T : trunc (inject_Z n) = n) by (unfold trunc; simpl; apply Z.quot_1_r).
  rewrite <- T. apply Z.le_antisymm; apply trunc_mono; rewrite E; apply Qle_refl.
Qed.

Lemma RNpos_exact_Z (n : Z) :
  (0 < n < 2 ^ 53)%Z -> RNpos (inject_Z n) == inject_Z n.
Proof.
  intros [Hn0 Hn1].
  assert (Hx : 0 < inject_Z n) by (unfold Qlt; simpl; lia).
  destruct (ilog2_spec _ Hx) as [Hlo _].
  assert (Hi : (ilog2 (inject_Z n) < 53)%Z).
  { apply (Qpower_lt_compat_l_inv 2); [|reflexivity].
    eapply Qle_lt_trans; [exact Hlo|].
    rewrite <- pow2_inject by lia. rewrite <- Zlt_Qlt. exact Hn1. }
  unfold RNpos. set (s := (ilog2 (inject_Z n) - 52)%Z).
  set (e := (- s)%Z). assert (He : (0 <= e)%Z) by (unfold e, s; lia).
  assert (Hse : 2 ^ e * 2 ^ s == 1).
  { rewrite <- pow2_add. replace (e + s)%Z with 0%Z by (unfold e; lia). reflexivity. }
  pose proof (pow2_pos s) as Hs.
  assert (Hq : inject_Z n / 2 ^ s == inject_Z (n * 2 ^ e)).
  { rewrite inject_Z_mult, pow2_inject by exact He.
    apply (Qmult_inj_r _ _ (2 ^ s)); [lra|].
    rewrite <- Qmult_assoc, Hse, Qmult_1_r.
    field. lra. }
  rewrite (round_half_even_compat _ _ Hq), round_half_even_Z.
  rewrite inject_Z_mult, pow2_inject by exact He.
  rewrite <- Qmult_assoc, Hse, Qmult_1_r. reflexivity.
Qed.

(** An integer below [2^53] in absolute value is a binary64 number. *)
Lemma RN_exact_Z (n : Z) : (Z.abs n < 2 ^ 53)%Z -> RN (inject_Z n) == inject_Z n.
Proof.
  intros Hn. unfold RN.
  destruct (Qcompare_spec (inject_Z n) 0) as [E|L|G].
  - symmetry. exact E.
  - assert (Hneg : (n < 0)%Z) by (unfold Qlt in L; simpl in L; lia).
    assert (E : - inject_Z n == inject_Z (- n)) by (rewrite inject_Z_opp; reflexivity).
    assert (Hp : 0 < - inject_Z n) by lra.
    assert (Hr : RNpos (- inject_Z n) == RNpos (inject_Z (- n))).
    { apply Qle_antisym; apply RNpos_mono; rewrite ?E; try apply Qle_refl; lra. }
    rewrite Hr, RNpos_exact_Z by lia. rewrite inject_Z_opp. ring.
  - apply RNpos_exact_Z. unfold Qlt in G. simpl in G. lia.
Qed.

Lemma truediv_exact (k n : Z) :
  (0 < n)%Z -> (Z.abs k < 2 ^ 53)%Z -> truediv (k * n) n == inject_Z k.
Proof.
  intros Hn Hk. unfold truediv.
  rewrite (RN_compat _ (inject_Z k)); [apply RN_exact_Z, Hk|].
  rewrite inject_Z_mult. apply Qdiv_mult_l.
  unfold Qeq. simpl. lia.
Qed.

Lemma fmul_exact (x : Q) (k n : Z) :
  x == inject_Z k -> (Z.abs (k * n) < 2 ^ 53)%Z ->
  fmul x (inject_Z n) == inject_Z (k * n).
Proof.
  intros E Hk. unfold fmul.
  rewrite (RN_compat _ (inject_Z (k * n))); [apply RN_exact_Z, Hk|].
  rewrite E, inject_Z_mult. reflexivity.
Qed.

End Exact_facts.

(** ** Whole seconds *)

Section Whole_seconds.
Import Binary64.

Local Ltac below_2_53 := change (2 ^ 53) with 9007199254740992; lia.

Lemma of_epoch_millis_whole_seconds (k : Z) :
  -62135596800 <= k <= 253402300799 ->
  Datetime.of_epoch_millis (k * 1000) = Some (k * 1000000).
Proof.
  intros Hk. unfold Datetime.of_epoch_millis, Datetime.utcfromtimestamp, modf.
  assert (Ex : (truediv (k * 1000) 1000 == inject_Z k)%Q)
    by (apply truediv_exact; [lia|below_2_53]).
  rewrite (trunc_Z _ _ Ex).
  assert (Ef : (truediv (k * 1000) 1000 - inject_Z k == inject_Z 0)%Q)
    by (rewrite Ex; ring).
  rewrite (round_half_even_compat _ _ (fmul_exact _ 0 1000000 Ef ltac:(reflexivity))).
  rewrite round_half_even_Z. change (0 * 1000000) with 0.
  change (1000000 <=? 0) with false. change (0 <? 0) with false. cbv beta iota.
  unfold Datetime.MIN_US, Datetime.MAX_US.
  destruct (Z.leb_spec (-62135596800 * 1000000) (k * 1000000 + 0)); [|lia].
  destruct (Z.leb_spec (k * 1000000 + 0) (253402300799 * 1000000 + 999999)); [|lia].
  cbn [andb]. f_equal. lia.
Qed.

Lemma to_epoch_millis_whole_seconds (k : Z) :
  -62135596800 <= k <= 253402300799 ->
  Datetime.to_epoch_millis (k * 1000000) = k * 1000.
Proof.
  intros Hk. unfold Datetime.to_epoch_millis, Datetime.total_seconds,
    Datetime.sub, Datetime.epoch.
  rewrite Z.sub_0_r. change (10 ^ 6) with 1000000.
  apply trunc_Z, fmul_exact; [apply truediv_exact; [lia|]|]; below_2_53.
Qed.

(** Whole seconds do come back unchanged. *)
Lemma round_trip_whole_seconds (k : Z) :
  -62135596800 <= k <= 253402300799 ->
  round_trip (k * 1000) = Some (k * 1000).
Proof.
  intros Hk. unfold round_trip. rewrite of_epoch_millis_whole_seconds by exact Hk.
  simpl. f_equal. unfold Datetime.bson_datetime, Datetime.bson_millis,
    Datetime.of_bson_millis.
  replace (k * 1000000 / 1000 * 1000) with (k * 1000000).
  - apply to_epoch_millis_whole_seconds, Hk.
  - replace (k * 1000000) with (k * 1000 * 1000) at 2 by lia.
    rewrite Z.div_mul by lia. lia.
Qed.

End Whole_seconds.

(** ** The reference platform *)

Lemma date_ge_total : Total date_ge.
Proof.
  intros a b. unfold date_ge.
  destruct (date_of a), (date_of b); try tauto. lia.
Qed.

Lemma date_ge_not_earlier a b : date_ge a b -> not_earlier a b.
Proof. unfold date_ge, not_earlier. destruct (date_of a), (date_of b); tauto. Qed.

Lemma Sorted_weaken {A} (R1 R2 : relation A) (l : list A) :
  (forall x y, R1 x y -> R2 x y) -> Sorted R1 l -> Sorted R2 l.
Proof.
  intros HR. induction 1 as [|x l _ IH Hhd]; constructor; [exact IH|].
  destruct Hhd; constructor; auto.
Qed.

Definition reference_platform : Platform := {|
  str_exn := reference_str_exn;
  str_other := reference_str_other;
  sort_desc := merge_sort date_ge;
  sort_desc_perm := merge_sort_Permutation date_ge;
  sort_desc_sorted := fun l =>
    Sorted_weaken date_ge not_earlier _ date_ge_not_earlier
      (@Sorted_merge_sort _ date_ge _ date_ge_total l) |}.


(** ** Dictionaries of the models *)

Section Dict_facts.
Context {V : Type} `{BaseModel V}.

Lemma dict_timestamp (data : SensorData V) :
  dict data !! "timestamp" = Some (VInt (timestamp data)).
Proof. unfold dict. by simplify_map_eq. Qed.

Lemma dict_deviceId (data : SensorData V) :
  dict data !! "deviceId" = Some (VStr (deviceId data)).
Proof. unfold dict. by simplify_map_eq. Qed.

Lemma dict_dom (data : SensorData V) :
  dom (dict data) = {["deviceId"; "timestamp"; "values"]}.
Proof. unfold dict. rewrite !dom_insert_L, dom_empty_L. set_solver. Qed.

End Dict_facts.

(** ** Encoding *)

Lemma bson_encodable_dict (m : gmap string value) :
  bson_encodable (VDict m) = true <->
  map_Forall (fun _ v => bson_encodable v = true) m.
Proof.
  change (bson_encodable (VDict m))
    with (map_fold (fun (_ : string) x acc => bson_encodable x && acc) true m).
  apply (map_fold_weak_ind
           (fun r m => r = true <-> map_Forall (fun _ v => bson_encodable v = true) m)).
  - split; [intros _; apply map_Forall_empty|reflexivity].
  - intros k v m' r Hk IH. rewrite map_Forall_insert by exact Hk.
    rewrite andb_true_iff, IH. reflexivity.
Qed.

(** A field that always encodes does not decide whether the document
    does. *)
Lemma bson_encodable_insert (k : string) (v : value) (m : gmap string value) :
  bson_encodable v = true -> m !! k = None ->
  bson_encodable (VDict (<[k := v]> m)) = bson_encodable (VDict m).
Proof.
  intros Hv Hk. apply eq_true_iff_eq.
  rewrite !bson_encodable_dict, map_Forall_insert by exact Hk. tauto.
Qed.

(** ** What an ingest does *)

Section Ingest_facts.
Context `{Platform} {V : Type} `{BaseModel V}.

Lemma insert_sensor_data_ingest (data : SensorData V) (data_type : string) :
  AppMain.insert_sensor_data data data_type = ingest (Some data_type) data.
Proof. reflexivity. Qed.

(** Every run of the shared statements, case by case. *)
Lemma ingest_run (tag : option string) (data : SensorData V) (w : world) :
  ingest tag data w =
  match Datetime.of_epoch_millis (timestamp data) with
  | None => (Raise (ValueError "year is out of range"), w)
  | Some dt =>
      if bson_encodable (VDict (sent_document tag data dt (next_oid w))) then
        match exchanges w with
        | Some msg :: _ => (Raise (PyMongoError msg), after_insert w None)
        | _ =>
            (Return (ack (deviceId data)),
             after_insert w (Some (stored_document tag data dt (next_oid w))))
        end
      else
        (Raise (OverflowError "MongoDB can only handle up to 8-byte ints"),
         {| collection := collection w; next_oid := (next_oid w + 1)%N;
            exchanges := exchanges w |})
  end.
Proof.
  unfold ingest, getitem. rewrite dict_timestamp.
  unfold mbind, M_bind, bind, div_int, ret, utcfromtimestamp, Datetime.of_epoch_millis.
  destruct (Datetime.utcfromtimestamp (truediv (timestamp data) 1000)) as [dt|];
    [|reflexivity].
  unfold insert_one, mbind, M_bind, bind, fresh_oid, sent_document. simpl.
  destruct (map_fold _ _ _); [|reflexivity].
  unfold exchange, append_document, after_insert, stored_document, sent_document.
  simpl. destruct (exchanges w) as [|[msg|] rest]; simpl; try reflexivity.
  rewrite app_nil_r. reflexivity.
Qed.

End Ingest_facts.

Section Handler_facts.
Context `{Platform}.

Lemma main_receive_ingest :
  (forall data, Main.receive_environmental_data data = catch_all (ingest None data)) /\
  (forall data, Main.receive_weather_data data = catch_all (ingest None data)) /\
  (forall data, Main.receive_airquality_data data = catch_all (ingest None data)).
Proof. repeat split. Qed.

Lemma app_receive_ingest :
  (forall data, AppMain.receive_traffic_data data
                = catch_all (ingest (Some "traffic") data)) /\
  (forall data, AppMain.receive_environmental_data data
                = catch_all (ingest (Some "environmental") data)) /\
  (forall data, AppMain.receive_weather_data data
                = catch_all (ingest (Some "weather") data)) /\
  (forall data, AppMain.receive_airquality_data data
                = catch_all (ingest (Some "air_quality") data)).
Proof. repeat split. Qed.

Lemma serve_catch_all {A} (code : Z) (m : M A) (w : world) :
  serve code (catch_all m) w =
  match m w with
  | (Return a, w') => ({| status := code; body := Body a |}, w')
  | (Raise e, w') => ({| status := 500; body := Detail (str_exn e) |}, w')
  end.
Proof.
  unfold serve, catch_all, try_except, raise. destruct (m w) as [[a|e] w']; reflexivity.
Qed.

Lemma catch_all_run {A} (m : M A) (w : world) :
  catch_all m w =
  match m w with
  | (Return a, w') => (Return a, w')
  | (Raise e, w') => (Raise (HTTPException 500 (str_exn e)), w')
  end.
Proof. unfold catch_all, try_except, raise. destruct (m w) as [[a|e] w']; reflexivity. Qed.

Context {V : Type} `{BaseModel V}.

Lemma serve_ingest_answered (code : Z) (tag : option string)
    (data : SensorData V) (w : world) :
  ingest_answered code (deviceId data) w (serve code (catch_all (ingest tag data)) w).
Proof.
  rewrite serve_catch_all, ingest_run. unfold ingest_answered.
  destruct (Datetime.of_epoch_millis _) as [dt|]; [|right; simpl; eauto].
  destruct (bson_encodable _); [|right; simpl; eauto].
  destruct (exchanges w) as [|[msg|] rest]; simpl;
    try (left; split; [reflexivity|eauto]).
  right. rewrite app_nil_r. eauto.
Qed.

Lemma stored_document_data_type (data_type : string) (data : SensorData V)
    (dt : Z) (oid : N) :
  stored_document (Some data_type) data dt oid !! "data_type"
  = Some (VStr data_type).
Proof.
  unfold stored_document, sent_document, add_tag.
  rewrite lookup_fmap. by simplify_map_eq.
Qed.

Lemma stored_document_timestamp (tag : option string) (data : SensorData V)
    (dt : Z) (oid : N) :
  stored_document tag data dt oid !! "timestamp"
  = Some (VDatetime (Datetime.bson_datetime dt)).
Proof.
  unfold stored_document, sent_document, add_tag.
  rewrite lookup_fmap. destruct tag; by simplify_map_eq.
Qed.

Lemma stored_document_dom_untagged (data : SensorData V) (dt : Z) (oid : N) :
  dom (stored_document None data dt oid)
  = {["_id"; "deviceId"; "timestamp"; "values"]}.
Proof.
  unfold stored_document, sent_document, add_tag.
  rewrite dom_fmap_L, !dom_insert_L, dict_dom. set_solver.
Qed.

Lemma stored_document_untagged (data : SensorData V) (dt : Z) (oid : N) :
  stored_document None data dt oid !! "data_type" = None.
Proof.
  unfold stored_document, sent_document, add_tag, dict.
  rewrite lookup_fmap. by simplify_map_eq.
Qed.

Lemma serve_ingest_tagged (data_type : string) (data : SensorData V) (w : world) :
  ingest_tagged data_type w
    (serve HTTP_201_CREATED (catch_all (ingest (Some data_type) data)) w).
Proof.
  rewrite serve_catch_all, ingest_run. unfold ingest_tagged.
  destruct (Datetime.of_epoch_millis _) as [dt|]; [|right; simpl; eauto].
  destruct (bson_encodable _); [|right; simpl; eauto].
  destruct (exchanges w) as [|[msg|] rest]; simpl;
    try (left; split; [reflexivity|eexists; split;
                       [reflexivity|apply stored_document_data_type]]).
  right. rewrite app_nil_r. eauto.
Qed.

(** An ingest goes through when the timestamp names a date, the values
    fit BSON and the exchange with the server does not fail. *)
Lemma ingest_accepted (tag : option string) (data : SensorData V) (w : world)
    (dt : Z) :
  Datetime.of_epoch_millis (timestamp data) = Some dt ->
  bson_encodable (VDict (values_dict (values data))) = true ->
  (forall msg rest, exchanges w <> Some msg :: rest) ->
  ingest tag data w
  = (Return (ack (deviceId data)),
     after_insert w (Some (stored_document tag data dt (next_oid w)))).
Proof.
  intros Edt Hv Hx. rewrite ingest_run, Edt.
  assert (Henc : bson_encodable (VDict (sent_document tag data dt (next_oid w))) = true).
  { apply bson_encodable_dict. unfold sent_document, dict.
    rewrite (insert_insert_ne _ "timestamp" "deviceId") by done.
    rewrite insert_insert_eq.
    apply map_Forall_insert_2; [reflexivity|].
    assert (Hd : map_Forall (fun (_ : string) v => bson_encodable v = true)
                   (<["deviceId" := VStr (deviceId data)]>
                      (<["timestamp" := VDatetime dt]>
                         (<["values" := VDict (values_dict (values data))]>
                            (∅ : gmap string value))))).
    { repeat (apply map_Forall_insert_2; [first [reflexivity|exact Hv]|]).
      apply map_Forall_empty. }
    destruct tag; simpl; [apply map_Forall_insert_2; [reflexivity|]|]; exact Hd. }
  rewrite Henc. destruct (exchanges w) as [|[msg|] rest]; try reflexivity.
  exfalso. eapply Hx. reflexivity.
Qed.

(** The category tag does not decide whether the document encodes. *)
Lemma sent_document_encodable (tag : option string) (data : SensorData V)
    (dt : Z) (oid : N) :
  bson_encodable (VDict (sent_document tag data dt oid))
  = bson_encodable (VDict (sent_document None data dt oid)).
Proof.
  destruct tag as [s|]; [|reflexivity]. unfold sent_document, add_tag.
  rewrite (insert_insert_ne _ "_id" "data_type") by done.
  apply bson_encodable_insert; [reflexivity|].
  unfold dict. by simplify_map_eq.
Qed.

Lemma ingest_same_dates (tag : option string) (data : SensorData V) (w : world) :
  same_dates (ingest tag data w) (ingest None data w).
Proof.
  unfold same_dates, stored_timestamps. rewrite !ingest_run.
  destruct (Datetime.of_epoch_millis _) as [dt|]; [|split; reflexivity].
  rewrite (sent_document_encodable tag).
  destruct (bson_encodable _); [|split; reflexivity].
  destruct (exchanges w) as [|[msg|] rest]; simpl; split; try reflexivity;
    rewrite !fmap_app; simpl; rewrite !stored_document_timestamp; reflexivity.
Qed.

Lemma catch_all_same_dates {A} (a b : M A) (w : world) :
  same_dates (a w) (b w) -> same_dates (catch_all a w) (catch_all b w).
Proof.
  unfold same_dates. rewrite !catch_all_run.
  destruct (a w) as [[x|e] wa], (b w) as [[y|e'] wb]; simpl;
    intros [E1 E2]; split; congruence.
Qed.

End Handler_facts.

(** ** What a query does *)

Lemma Sorted_firstn {A} (R : relation A) (n : nat) (l : list A) :
  Sorted R l -> Sorted R (firstn n l).
Proof.
  intros Hl. revert n. induction Hl as [|x l _ IH Hhd]; intros [|n]; simpl;
    try constructor; [apply IH|].
  destruct Hhd; destruct n; simpl; constructor; assumption.
Qed.

Lemma firstn_subseteq {A} (n : nat) (l : list A) : firstn n l ⊆ l.
Proof. apply subseteq_take. Qed.

Section Query_facts.
Context `{Platform}.

Lemma exchange_collection (w : world) : collection (snd (exchange w)) = collection w.
Proof. unfold exchange. destruct (exchanges w) as [|[msg|] rest]; reflexivity. Qed.

Lemma exchange_run (w : world) :
  exchange w =
  match exchanges w with
  | Some msg :: _ => (Raise (PyMongoError msg), snd (exchange w))
  | _ => (Return tt, snd (exchange w))
  end.
Proof. unfold exchange. destruct (exchanges w) as [|[msg|] rest]; reflexivity. Qed.

Lemma convert_item_world (item : gmap string value) (w : world) :
  snd (AppMain.convert_item item w) = w.
Proof.
  unfold AppMain.convert_item, getitem, mbind, M_bind, bind, minus_epoch, ret, raise.
  destruct (item !! "_id"); [|reflexivity].
  destruct (_ !! "timestamp") as [[]|]; reflexivity.
Qed.

Lemma convert_item_Return (doc item : gmap string value) (w w' : world) :
  AppMain.convert_item doc w = (Return item, w') -> converted doc item.
Proof.
  unfold AppMain.convert_item, getitem, mbind, M_bind, bind, minus_epoch, ret, raise.
  destruct (doc !! "_id") as [id|] eqn:Eid; [|discriminate].
  rewrite lookup_insert_ne by done.
  destruct (doc !! "timestamp") as [[| | |dt| |]|] eqn:Ets; try discriminate.
  intros [= <- _]. exists id, dt. repeat split; assumption.
Qed.

Lemma for_each_convert_world (l : list (gmap string value)) (w : world) :
  snd (for_each AppMain.convert_item l w) = w.
Proof.
  induction l as [|doc l IH]; [reflexivity|]. simpl.
  unfold mbind, M_bind, bind.
  pose proof (convert_item_world doc w) as Hw.
  destruct (AppMain.convert_item doc w) as [[item|e] w1]; simpl in Hw; subst w1;
    [|reflexivity].
  destruct (for_each AppMain.convert_item l w) as [[items|e] w2]; simpl in IH; subst w2;
    reflexivity.
Qed.

Lemma for_each_convert_Return (l items : list (gmap string value)) (w w' : world) :
  for_each AppMain.convert_item l w = (Return items, w') -> Forall2 converted l items.
Proof.
  revert items w'. induction l as [|doc l IH]; intros items w'; simpl.
  - intros [= <- _]. constructor.
  - unfold mbind, M_bind, bind.
    pose proof (convert_item_world doc w) as Hw.
    destruct (AppMain.convert_item doc w) as [[item|e] w1] eqn:E1; simpl in Hw; subst w1;
      [|discriminate].
    destruct (for_each AppMain.convert_item l w) as [[rest|e] w2] eqn:E2; [|discriminate].
    intros [= <- _]. constructor; [eapply convert_item_Return; eauto|eapply IH; eauto].
Qed.

(** Every run of the statements inside the [try], case by case. *)
Lemma get_device_data_body_run (deviceId : string) (limit : Z) (w : world) :
  AppMain.get_device_data_body deviceId limit w =
  if limit <? 0 then (Raise (ValueError "length must be non-negative"), w)
  else
    match exchanges w with
    | Some msg :: _ => (Raise (PyMongoError msg), snd (exchange w))
    | _ =>
        match found deviceId limit w with
        | [] => (Raise (HTTPException 404 "Dispositivo no encontrado"),
                 snd (exchange w))
        | docs => for_each AppMain.convert_item docs (snd (exchange w))
        end
    end.
Proof.
  unfold AppMain.get_device_data_body, Motor.to_list, found.
  destruct (limit <? 0); [reflexivity|].
  unfold mbind, M_bind, bind, documents, ret. rewrite exchange_run.
  pose proof (exchange_collection w) as Hc.
  destruct (exchanges w) as [|[msg|] rest]; try reflexivity; simpl;
    rewrite ?Hc; destruct (firstn _ _); reflexivity.
Qed.

Lemma get_device_data_body_collection (deviceId : string) (limit : Z) (w : world) :
  collection (snd (AppMain.get_device_data_body deviceId limit w)) = collection w.
Proof.
  rewrite get_device_data_body_run. pose proof (exchange_collection w) as Hc.
  destruct (limit <? 0); [reflexivity|].
  destruct (exchanges w) as [|[msg|] rest]; try exact Hc;
    (destruct (found deviceId limit w); [exact Hc|];
     rewrite for_each_convert_world; exact Hc).
Qed.

Lemma get_device_data_body_Return (deviceId : string) (limit : Z) (w w' : world)
    (items : list (gmap string value)) :
  AppMain.get_device_data_body deviceId limit w = (Return items, w') ->
  0 <= limit /\ Forall2 converted (found deviceId limit w) items.
Proof.
  rewrite get_device_data_body_run.
  destruct (Z.ltb_spec limit 0); [discriminate|].
  intros E. split; [assumption|].
  destruct (exchanges w) as [|[msg|] rest]; try discriminate;
    (destruct (found deviceId limit w); [discriminate|];
     eapply for_each_convert_Return; exact E).
Qed.

Lemma GET_data_records (deviceId : string) (limit : option Z) (w : world)
    (items : list (gmap string value)) :
  records (fst (AppMain.GET_data deviceId limit w)) = Some items ->
  0 <= default 100 limit /\
  Forall2 converted (found deviceId (default 100 limit) w) items.
Proof.
  unfold AppMain.GET_data, AppMain.get_device_data.
  fold (catch_all (AppMain.get_device_data_body deviceId (default 100 limit))).
  rewrite serve_catch_all.
  destruct (AppMain.get_device_data_body _ _ w) as [[l|e] w'] eqn:E; [|discriminate].
  intros [= <-]. eapply get_device_data_body_Return; eauto.
Qed.

Lemma GET_data_collection (deviceId : string) (limit : option Z) (w : world) :
  collection (snd (AppMain.GET_data deviceId limit w)) = collection w.
Proof.
  unfold AppMain.GET_data, AppMain.get_device_data.
  fold (catch_all (AppMain.get_device_data_body deviceId (default 100 limit))).
  rewrite serve_catch_all.
  pose proof (get_device_data_body_collection deviceId (default 100 limit) w) as Hc.
  destruct (AppMain.get_device_data_body _ _ w) as [[l|e] w']; exact Hc.
Qed.

End Query_facts.

(** ** Order and size of the records of a response *)

Section Order_facts.
Context `{Platform}.

Lemma found_sorted (deviceId : string) (limit : Z) (w : world) :
  Sorted not_earlier (found deviceId limit w).
Proof.
  unfold found, Motor.run_cursor. simpl. apply Sorted_firstn.
  destruct (limit =? 0); [|apply Sorted_firstn]; apply sort_desc_sorted.
Qed.

Lemma found_length (deviceId : string) (limit : Z) (w : world) :
  0 <= limit -> Z.of_nat (length (found deviceId limit w)) <= limit.
Proof.
  intros Hl. unfold found. rewrite length_take. lia.
Qed.

Lemma found_stored (deviceId : string) (limit : Z) (w : world) :
  found deviceId limit w ⊆ collection w.
Proof.
  unfold found, Motor.run_cursor. simpl.
  etransitivity; [apply subseteq_take|].
  assert (Hs : sort_desc (List.filter (Motor.matches deviceId) (collection w))
               ⊆ collection w).
  { intros d Hd. rewrite (sort_desc_perm _) in Hd.
    apply list_elem_of_In in Hd. apply List.filter_In in Hd as [Hd _].
    apply list_elem_of_In, Hd. }
  destruct (limit =? 0); [exact Hs|].
  etransitivity; [apply subseteq_take|exact Hs].
Qed.

Lemma found_no_match (deviceId : string) (limit : Z) (w : world) :
  List.filter (Motor.matches deviceId) (collection w) = [] ->
  found deviceId limit w = [].
Proof.
  intros E. unfold found, Motor.run_cursor. simpl. rewrite E.
  rewrite (Permutation_nil (Permutation_sym (sort_desc_perm []))).
  destruct (limit =? 0); rewrite ?take_nil; reflexivity.
Qed.

Lemma converted_dates (docs items : list (gmap string value)) :
  Forall2 converted docs items ->
  exists dts, map date_of docs = map Some dts /\
              map int_timestamp items
              = map Some (map Datetime.to_epoch_millis dts).
Proof.
  induction 1 as [|doc item docs items (id & dt & Hid & Hts & ->) _ (dts & E1 & E2)].
  - exists []. split; reflexivity.
  - exists (dt :: dts). simpl. rewrite E1, E2. unfold date_of, int_timestamp.
    rewrite Hts, lookup_insert_eq. split; reflexivity.
Qed.

Lemma dates_descending (docs : list (gmap string value)) (dts : list Z) :
  map date_of docs = map Some dts -> Sorted not_earlier docs -> descending dts.
Proof.
  intros E Hs. revert dts E.
  induction Hs as [|doc docs _ IH Hhd]; intros [|dt dts]; simpl; try discriminate.
  - constructor.
  - intros [= Edt E]. constructor; [apply IH; exact E|].
    destruct Hhd as [|doc' docs' Hr]; destruct dts as [|dt' dts']; try discriminate;
      constructor.
    simpl in E. injection E as Edt' _. unfold not_earlier in Hr.
    rewrite Edt, Edt' in Hr. exact Hr.
Qed.

Lemma converted_descending (docs items : list (gmap string value)) :
  Forall2 converted docs items -> Sorted not_earlier docs ->
  exists ts, map int_timestamp items = map Some ts /\ descending ts.
Proof.
  intros Hc Hs. destruct (converted_dates docs items Hc) as (dts & E1 & E2).
  exists (map Datetime.to_epoch_millis dts). split; [exact E2|].
  apply (Sorted_fmap _ (fun a b => b <= a) (fun a b => b <= a));
    [|eapply dates_descending; eauto].
  intros a b. apply to_epoch_millis_mono.
Qed.

(** A record the query makes of a document an ingest stored shows the
    round trip of the ingested timestamp. *)
Lemma ingested_record_timestamp {V} `{BaseModel V} (tag : option string)
    (data : SensorData V) (dt : Z) (oid : N) (item : gmap string value) :
  Datetime.of_epoch_millis (timestamp data) = Some dt ->
  converted (stored_document tag data dt oid) item ->
  int_timestamp item = round_trip (timestamp data).
Proof.
  intros Edt (id & dt' & _ & Hts & ->). unfold round_trip. rewrite Edt. simpl.
  rewrite stored_document_timestamp in Hts. injection Hts as <-.
  unfold int_timestamp. rewrite lookup_insert_eq. reflexivity.
Qed.

End Order_facts.

(** * Properties of the handlers, on every platform *)

Section Claims.
Context `{Platform}.

(** C2 (defect in the code): a query that finds no record is meant to
    answer 404, and a query never answers 404.
    The not-found exception the handler raises for an empty result is
    caught by the handler's own [except Exception] and sent as a 500
    whose detail is the printed 404; so it is for any device on the empty
    collection. *)
Theorem get_device_data_never_answers_404
    (deviceId : string) (limit : option Z) (w : world) :
  status (fst (AppMain.GET_data deviceId limit w)) <> HTTP_404_NOT_FOUND /\
  fst (AppMain.GET_data deviceId None empty_world)
  = {| status := HTTP_500_INTERNAL_SERVER_ERROR;
       body := Detail (str_exn (HTTPException HTTP_404_NOT_FOUND
                                  "Dispositivo no encontrado")) |}.
Proof.
  split.
  - unfold AppMain.GET_data, AppMain.get_device_data.
    fold (catch_all (AppMain.get_device_data_body deviceId (default 100 limit))).
    rewrite serve_catch_all.
    destruct (AppMain.get_device_data_body _ _ w) as [[l|e] w']; simpl; discriminate.
  - unfold AppMain.GET_data, AppMain.get_device_data.
    fold (catch_all (AppMain.get_device_data_body deviceId (default 100 None))).
    rewrite serve_catch_all, get_device_data_body_run.
    rewrite found_no_match by reflexivity. reflexivity.
Qed.

Lemma query_size_at_most_limit
    (deviceId : string) (limit : Z) (w : world)
    (items : list (gmap string value)) :
  records (fst (AppMain.GET_data deviceId (Some limit) w)) = Some items ->
  Z.of_nat (length items) <= limit.
Proof.
  intros E. apply GET_data_records in E as [Hl Hc]. simpl in Hl, Hc.
  rewrite <- (Forall2_length _ _ _ Hc). apply found_length, Hl.
Qed.

(** C3 (amended): when a query returns records, there are at most
    [limit] of them and their timestamps never increase: each one is at
    least the next one.  Ties are possible. *)
Theorem query_at_most_limit_descending
    (deviceId : string) (limit : Z) (w : world)
    (items : list (gmap string value)) :
  records (fst (AppMain.GET_data deviceId (Some limit) w)) = Some items ->
  Z.of_nat (length items) <= limit /\
  exists ts, map int_timestamp items = map Some ts /\ descending ts.
Proof.
  intros E. split; [eapply query_size_at_most_limit; exact E|].
  apply GET_data_records in E as [_ Hc].
  eapply converted_descending; [exact Hc|apply found_sorted].
Qed.

(** C4 (amended): a POST to one of the four endpoints of [app_main.py]
    either stores one document and answers 201 with the body
    [{status: "success", deviceId}], [deviceId] being the payload's, or
    stores nothing and answers 500; the three endpoints of [main.py]
    (it has no [/traffic-data/]) do the same with 200 in place of 201. *)
Theorem ingest_status_and_body (w : world)
    (tr : TrafficData) (en : EnvironmentalData)
    (we : WeatherData) (aq : AirQualityData) :
  ingest_answered 201 (deviceId tr) w (AppMain.POST_traffic_data tr w) /\
  ingest_answered 201 (deviceId en) w (AppMain.POST_environmental_data en w) /\
  ingest_answered 201 (deviceId we) w (AppMain.POST_weather_data we w) /\
  ingest_answered 201 (deviceId aq) w (AppMain.POST_airquality_data aq w) /\
  ingest_answered 200 (deviceId en) w (Main.POST_environmental_data en w) /\
  ingest_answered 200 (deviceId we) w (Main.POST_weather_data we w) /\
  ingest_answered 200 (deviceId aq) w (Main.POST_airquality_data aq w).
Proof.
  unfold AppMain.POST_traffic_data, AppMain.POST_environmental_data,
    AppMain.POST_weather_data, AppMain.POST_airquality_data,
    Main.POST_environmental_data, Main.POST_weather_data,
    Main.POST_airquality_data.
  destruct app_receive_ingest as (-> & -> & -> & ->).
  destruct main_receive_ingest as (-> & -> & ->).
  repeat apply conj; apply serve_ingest_answered.
Qed.

(** C5 (amended): a POST to one of the four endpoints of [app_main.py]
    that answers 201 has stored one document whose [data_type] field
    names the category of the endpoint: "traffic", "environmental",
    "weather" or "air_quality"; otherwise it answers 500 and stores
    nothing. *)
Theorem app_main_ingest_tags_category (w : world)
    (tr : TrafficData) (en : EnvironmentalData)
    (we : WeatherData) (aq : AirQualityData) :
  ingest_tagged "traffic" w (AppMain.POST_traffic_data tr w) /\
  ingest_tagged "environmental" w (AppMain.POST_environmental_data en w) /\
  ingest_tagged "weather" w (AppMain.POST_weather_data we w) /\
  ingest_tagged "air_quality" w (AppMain.POST_airquality_data aq w).
Proof.
  unfold AppMain.POST_traffic_data, AppMain.POST_environmental_data,
    AppMain.POST_weather_data, AppMain.POST_airquality_data.
  destruct app_receive_ingest as (-> & -> & -> & ->).
  repeat apply conj; apply serve_ingest_tagged.
Qed.

(** C6: on the same payload and the same state, a handler of
    [app_main.py] and the handler of [main.py] for the same category end
    the same way (both return the acknowledgement or both raise the same
    error) and leave the same [timestamp] values in the collection: the
    datetime stored for a millisecond timestamp is the same in the two
    modules. *)
Theorem timestamp_normalization_identical (w : world)
    (en : EnvironmentalData) (we : WeatherData) (aq : AirQualityData) :
  same_dates (AppMain.receive_environmental_data en w)
             (Main.receive_environmental_data en w) /\
  same_dates (AppMain.receive_weather_data we w)
             (Main.receive_weather_data we w) /\
  same_dates (AppMain.receive_airquality_data aq w)
             (Main.receive_airquality_data aq w).
Proof.
  destruct app_receive_ingest as (_ & -> & -> & ->).
  destruct main_receive_ingest as (-> & -> & ->).
  repeat apply conj; apply catch_all_same_dates, ingest_same_dates.
Qed.

Lemma ingest_answered_collection (code : Z) (dev : string) (w : world)
    (out : response (gmap string value) * world) :
  ingest_answered code dev w out ->
  exists new, collection (snd out) = collection w ++ new /\ (length new <= 1)%nat.
Proof.
  intros [[_ [d ->]]|[_ ->]].
  - exists [d]. split; [reflexivity|simpl; lia].
  - exists []. split; [symmetry; apply app_nil_r|simpl; lia].
Qed.

Lemma handle_collection (r : request) (w : world) :
  exists new, collection (snd (handle r w)) = collection w ++ new /\
              (length new <= 1)%nat.
Proof.
  assert (I : forall V (M : BaseModel V) code tag (data : SensorData V),
             exists new,
               collection (snd (serve code (catch_all (ingest tag data)) w))
               = collection w ++ new /\ (length new <= 1)%nat).
  { intros. eapply ingest_answered_collection, serve_ingest_answered. }
  destruct r as [tr|en|we|aq|dev lim|en|we|aq]; unfold handle.
  - pose proof (I _ _ HTTP_201_CREATED (Some "traffic") tr) as Hi.
    destruct (AppMain.POST_traffic_data tr w) eqn:E.
    unfold AppMain.POST_traffic_data in E.
    destruct app_receive_ingest as (A & _). rewrite A in E. rewrite E in Hi. exact Hi.
  - pose proof (I _ _ HTTP_201_CREATED (Some "environmental") en) as Hi.
    destruct (AppMain.POST_environmental_data en w) eqn:E.
    unfold AppMain.POST_environmental_data in E.
    destruct app_receive_ingest as (_ & A & _). rewrite A in E. rewrite E in Hi. exact Hi.
  - pose proof (I _ _ HTTP_201_CREATED (Some "weather") we) as Hi.
    destruct (AppMain.POST_weather_data we w) eqn:E.
    unfold AppMain.POST_weather_data in E.
    destruct app_receive_ingest as (_ & _ & A & _). rewrite A in E. rewrite E in Hi. exact Hi.
  - pose proof (I _ _ HTTP_201_CREATED (Some "air_quality") aq) as Hi.
    destruct (AppMain.POST_airquality_data aq w) eqn:E.
    unfold AppMain.POST_airquality_data in E.
    destruct app_receive_ingest as (_ & _ & _ & A). rewrite A in E. rewrite E in Hi. exact Hi.
  - pose proof (GET_data_collection dev lim w) as Hc.
    destruct (AppMain.GET_data dev lim w). simpl in *.
    exists []. rewrite app_nil_r. split; [exact Hc|simpl; lia].
  - pose proof (I _ _ HTTP_200_OK None en) as Hi.
    destruct (Main.POST_environmental_data en w) eqn:E.
    unfold Main.POST_environmental_data in E.
    destruct main_receive_ingest as (A & _). rewrite A in E. rewrite E in Hi. exact Hi.
  - pose proof (I _ _ HTTP_200_OK None we) as Hi.
    destruct (Main.POST_weather_data we w) eqn:E.
    unfold Main.POST_weather_data in E.
    destruct main_receive_ingest as (_ & A & _). rewrite A in E. rewrite E in Hi. exact Hi.
  - pose proof (I _ _ HTTP_200_OK None aq) as Hi.
    destruct (Main.POST_airquality_data aq w) eqn:E.
    unfold Main.POST_airquality_data in E.
    destruct main_receive_ingest as (_ & _ & A). rewrite A in E. rewrite E in Hi. exact Hi.
Qed.

(** C7: a query leaves the collection as it is; any request leaves the
    collection as it was, followed by at most one new document; so after
    any sequence of requests to the two modules every document that was
    in the collection is still there, at its place and unchanged. *)
Theorem requests_only_append :
  (forall deviceId limit w,
     collection (snd (AppMain.GET_data deviceId limit w)) = collection w) /\
  (forall r w, exists new,
     collection (snd (handle r w)) = collection w ++ new /\ (length new <= 1)%nat) /\
  (forall rs w, exists new,
     collection (run rs w) = collection w ++ new /\ (length new <= length rs)%nat).
Proof.
  split; [exact GET_data_collection|]. split; [exact handle_collection|].
  induction rs as [|r rs IH]; intros w; simpl.
  - exists []. split; [symmetry; apply app_nil_r|simpl; lia].
  - destruct (handle_collection r w) as (n1 & E1 & L1).
    destruct (IH (snd (handle r w))) as (n2 & E2 & L2).
    exists (n1 ++ n2). rewrite E2, E1, length_app, <- app_assoc.
    split; [reflexivity|lia].
Qed.

(** C8: every record a query returns comes from a document of the
    collection and holds, under [_id], the string [str] gives for that
    document's [_id] (for an [ObjectId], its 24 hexadecimal digits);
    apart from [_id] and [timestamp] the record is the document. *)
Theorem query_prints_ids
    (deviceId : string) (limit : option Z) (w : world)
    (items : list (gmap string value)) :
  records (fst (AppMain.GET_data deviceId limit w)) = Some items ->
  Forall (fun item =>
            exists doc id,
              doc ∈ collection w /\
              doc !! "_id" = Some id /\
              item !! "_id" = Some (VStr (str id)) /\
              (forall oid, id = VObjectId oid ->
                           item !! "_id" = Some (VStr (str_ObjectId oid))) /\
              (forall k, k <> "_id" -> k <> "timestamp" -> item !! k = doc !! k))
         items.
Proof.
  intros E. apply GET_data_records in E as [_ Hc].
  pose proof (found_stored deviceId (default 100 limit) w) as Hs.
  revert Hs. induction Hc as [|doc item docs items (id & dt & Hid & _ & ->) _ IH];
    intros Hs; constructor.
  - exists doc, id. split; [apply Hs; left|]. split; [exact Hid|].
    assert (Ei : <["timestamp" := VInt (Datetime.to_epoch_millis dt)]>
                   (<["_id" := VStr (str id)]> doc) !! "_id" = Some (VStr (str id))).
    { rewrite lookup_insert_ne by done. apply lookup_insert_eq. }
    split; [exact Ei|]. split.
    + intros oid ->. exact Ei.
    + intros k K1 K2. rewrite !lookup_insert_ne by congruence. reflexivity.
  - apply IH. intros d Hd. apply Hs. right. exact Hd.
Qed.

(** C9: a query without [limit] gives the answer and leaves the state
    of the query with [limit = 100]; in particular it returns at most
    100 records. *)
Theorem default_limit_is_100 (deviceId : string) (w : world) :
  AppMain.GET_data deviceId None w = AppMain.GET_data deviceId (Some 100) w /\
  Z.of_nat (length (default [] (records (fst (AppMain.GET_data deviceId None w)))))
  <= 100.
Proof.
  split; [reflexivity|].
  destruct (records (fst (AppMain.GET_data deviceId None w))) as [items|] eqn:E;
    [|simpl; lia].
  apply (query_size_at_most_limit deviceId 100 w items E).
Qed.

(** C10 (defect in the code, the one of C2): with [limit = 0] the list
    read from the cursor is empty whatever the collection holds, and,
    unless the exchange with the server fails, the statements inside the
    [try] raise the not-found exception; but the answer is never 404:
    the handler's own [except Exception] turns it into a 500. *)
Theorem limit_zero_takes_not_found_branch (deviceId : string) (w : world) :
  found deviceId 0 w = [] /\
  match exchanges w with
  | Some msg :: _ =>
      fst (AppMain.get_device_data_body deviceId 0 w) = Raise (PyMongoError msg)
  | _ =>
      fst (AppMain.get_device_data_body deviceId 0 w)
      = Raise (HTTPException HTTP_404_NOT_FOUND "Dispositivo no encontrado") /\
      fst (AppMain.GET_data deviceId (Some 0) w)
      = {| status := HTTP_500_INTERNAL_SERVER_ERROR;
           body := Detail (str_exn (HTTPException HTTP_404_NOT_FOUND
                                      "Dispositivo no encontrado")) |}
  end /\
  status (fst (AppMain.GET_data deviceId (Some 0) w)) = HTTP_500_INTERNAL_SERVER_ERROR.
Proof.
  split; [reflexivity|].
  unfold AppMain.GET_data, AppMain.get_device_data.
  fold (catch_all (AppMain.get_device_data_body deviceId (default 100 (Some 0)))).
  rewrite serve_catch_all. simpl default. rewrite get_device_data_body_run.
  change (found deviceId 0 w) with (@nil (gmap string value)). simpl.
  destruct (exchanges w) as [|[msg|] rest]; repeat split; reflexivity.
Qed.

End Claims.

Lemma has_records_default {A} (a : response (list A)) :
  has_records a = true -> records a = Some (default [] (records a)).
Proof. unfold has_records. destruct (records a); [reflexivity|discriminate]. Qed.

(** * Runs on the reference platform *)

Section Reference_runs.
#[local] Existing Instance reference_platform.

(** One environmental reading of 1970-01-01T00:00:01.001Z ingested into
    the empty collection. *)
Definition world_1001 : world :=
  run [AppPostEnvironmental (sample_environmental "dev-1" 1001)] empty_world.

(** The same reading of 2023-11-14T22:13:20Z ingested twice. *)
Definition dup_world : world :=
  run [AppPostEnvironmental (sample_environmental "dev-1" 1700000000000);
       AppPostEnvironmental (sample_environmental "dev-1" 1700000000000)]
      empty_world.

(** Four readings of two devices, sent out of order to both modules. *)
Definition mixed_world : world :=
  run [AppPostEnvironmental (sample_environmental "dev-1" 1700000000000);
       AppPostTraffic (sample_traffic "dev-2" 1700000015000);
       MainPostWeather (sample_weather "dev-1" 1700000060000);
       AppPostAirQuality (sample_airquality "dev-1" 1700000030000)]
      empty_world.

Definition dup_items : list (gmap string value) :=
  default [] (records (fst (AppMain.GET_data "dev-1" (Some 100) dup_world))).

Definition mixed_items : list (gmap string value) :=
  default [] (records (fst (AppMain.GET_data "dev-1" (Some 2) mixed_world))).

(** The model and the kernel's binary64 arithmetic agree on every
    floating-point step of the round trip of 1001. *)
Example binary64_steps_of_1001 :
  same_value (1001 / 1000)%float (truediv 1001 1000) = true /\
  same_value ((1001 / 1000 - 1) * 1000000)%float
             (fmul (fst (modf (truediv 1001 1000))) (inject_Z 1000000)) = true /\
  same_value (1001000 / 1000000)%float (Datetime.total_seconds 1001000) = true /\
  same_value (1001000 / 1000000 * 1000)%float
             (fmul (Datetime.total_seconds 1001000) (inject_Z 1000)) = true.
Proof. vm_compute. repeat split. Qed.

(** The example of the specification does come back unchanged. *)
Example round_trip_1700000000000 : round_trip 1700000000000 = Some 1700000000000.
Proof. vm_compute. reflexivity. Qed.

(** C1 (defect in the code): a timestamp is meant to come back from a
    query as it was ingested, and the timestamp 1001 is stored
    as 1970-01-01T00:00:01.001 and read back as 1000, because
    [1.001 * 1000] is [1000.9999999999999] in binary64 and [int]
    truncates; the same happens to 1078625331860 (2004-03-07).  Run
    through the handlers: ingest 1001, query the device, get 1000. *)
Theorem round_trip_loses_a_millisecond :
  Datetime.of_epoch_millis 1001 = Some 1001000 /\
  round_trip 1001 = Some 1000 /\
  round_trip 1078625331860 = Some 1078625331859 /\
  map int_timestamp <$> records (fst (AppMain.GET_data "dev-1" None world_1001))
  = Some [Some 1000].
Proof. vm_compute. repeat split. Qed.

(** C3 (counterexample): the same reading ingested twice comes back as
    two records with equal timestamps. *)
Lemma equal_timestamps_not_strict :
  ~ returns_strictly_descending dup_world "dev-1" 100.
Proof.
  intros Hc.
  assert (E : has_records (fst (AppMain.GET_data "dev-1" (Some 100) dup_world)) = true)
    by (vm_compute; reflexivity).
  apply has_records_default in E.
  destruct (Hc _ E) as (_ & ts & Ets & Hs).
  assert (Ei : map int_timestamp dup_items
               = [Some 1700000000000; Some 1700000000000])
    by (vm_compute; reflexivity).
  fold dup_items in Ets. rewrite Ei in Ets. clear Hc E Ei.
  destruct ts as [|a [|b [|c ts]]]; try discriminate Ets.
  injection Ets as <- <-. inversion Hs as [|? ? _ Hhd]; subst.
  inversion Hhd; subst. lia.
Qed.

(** C3 (witness): the two latest of the three readings of dev-1. *)
Lemma query_at_most_limit_descending_witness :
  records (fst (AppMain.GET_data "dev-1" (Some 2) mixed_world)) = Some mixed_items /\
  (Z.of_nat (length mixed_items) <= 2 /\
   exists ts, map int_timestamp mixed_items = map Some ts /\ descending ts).
Proof.
  assert (E : records (fst (AppMain.GET_data "dev-1" (Some 2) mixed_world))
              = Some mixed_items)
    by (apply has_records_default; vm_compute; reflexivity).
  split; [exact E|].
  exact (query_at_most_limit_descending "dev-1" 2 mixed_world mixed_items E).
Defined.

Example mixed_items_timestamps :
  map int_timestamp mixed_items = [Some 1700000060000; Some 1700000030000].
Proof. vm_compute. reflexivity. Qed.

(** The environmental reading the counterexamples send to [main.py]. *)
Definition main_run : response (gmap string value) * world :=
  Main.POST_environmental_data (sample_environmental "dev-1" 1700000000000)
    empty_world.

Lemma main_run_stored :
  main_run
  = ({| status := 200; body := Body (ack "dev-1") |},
     after_insert empty_world
       (Some (stored_document None (sample_environmental "dev-1" 1700000000000)
                1700000000000000 (next_oid empty_world)))).
Proof.
  unfold main_run, Main.POST_environmental_data.
  destruct (main_receive_ingest (H := reference_platform)) as (-> & _).
  rewrite serve_catch_all.
  rewrite (ingest_accepted None _ empty_world 1700000000000000);
    [reflexivity|vm_compute; reflexivity|vm_compute; reflexivity|discriminate].
Qed.

(** C4 (counterexample): [main.py] stores the reading and answers 200,
    not 201. *)
Lemma main_ingest_answers_200 :
  (exists d, collection (snd main_run) = [d]) /\
  body (fst main_run) = Body (ack "dev-1") /\
  status (fst main_run) = 200 /\
  status (fst main_run) <> HTTP_201_CREATED.
Proof.
  rewrite main_run_stored. repeat split; [eexists; reflexivity|discriminate].
Qed.

(** C5 (counterexample): the document [main.py] stores for the reading
    has the fields [_id], [deviceId], [timestamp] and [values] and no
    other: nothing in it names the category. *)
Lemma main_ingest_stores_no_category :
  exists d, collection (snd main_run) = [d] /\
            d !! "data_type" = None /\
            dom d = {["_id"; "deviceId"; "timestamp"; "values"]}.
Proof.
  pose proof (stored_document_dom_untagged
                (sample_environmental "dev-1" 1700000000000)
                1700000000000000 (next_oid empty_world)) as Hd.
  pose proof main_run_stored as E.
  set (d := stored_document None _ _ _) in Hd, E.
  rewrite E. exists d. split; [reflexivity|]. split; [|exact Hd].
  apply stored_document_untagged.
Qed.

(** The same reading sent to [app_main.py] is stored with its category
    and answered 201. *)
Example app_main_run_tagged :
  let out := AppMain.POST_environmental_data
               (sample_environmental "dev-1" 1700000000000) empty_world in
  status (fst out) = 201 /\
  (fun d : gmap string value => d !! "data_type") <$> collection (snd out)
  = [Some (VStr "environmental")].
Proof. vm_compute. split; reflexivity. Qed.

(** C8 (witness): the two records of the query on [mixed_world]. *)
Lemma query_prints_ids_witness :
  records (fst (AppMain.GET_data "dev-1" (Some 2) mixed_world)) = Some mixed_items /\
  Forall (fun item =>
            exists doc id,
              doc ∈ collection mixed_world /\
              doc !! "_id" = Some id /\
              item !! "_id" = Some (VStr (str id)) /\
              (forall oid, id = VObjectId oid ->
                           item !! "_id" = Some (VStr (str_ObjectId oid))) /\
              (forall k, k <> "_id" -> k <> "timestamp" -> item !! k = doc !! k))
         mixed_items.
Proof.
  assert (E : records (fst (AppMain.GET_data "dev-1" (Some 2) mixed_world))
              = Some mixed_items)
    by (apply has_records_default; vm_compute; reflexivity).
  split; [exact E|].
  exact (query_prints_ids "dev-1" (Some 2) mixed_world mixed_items E).
Defined.

Example mixed_items_ids :
  (fun d : gmap string value => d !! "_id") <$> mixed_items
  = [Some (VStr "65a1f2c84b7d3e0012ab34cf"); Some (VStr "65a1f2c84b7d3e0012ab34d0")].
Proof. vm_compute. reflexivity. Qed.

(** Queries that find nothing, ask for nothing or ask for a negative
    number of records are all answered 500. *)
Example queries_answered_500 :
  fst (AppMain.GET_data "dev-9" None mixed_world)
  = {| status := 500; body := Detail "404: Dispositivo no encontrado" |} /\
  fst (AppMain.GET_data "dev-1" (Some 0) mixed_world)
  = {| status := 500; body := Detail "404: Dispositivo no encontrado" |} /\
  fst (AppMain.GET_data "dev-1" (Some (-1)) mixed_world)
  = {| status := 500; body := Detail "length must be non-negative" |}.
Proof. vm_compute. repeat split. Qed.

End Reference_runs.

(** * Further properties of the conversions *)

(** The microsecond count [datetime.utcfromtimestamp] builds before it
    checks the range. *)
Definition micros (x : Q) : Z :=
  trunc x * 1000000
  + round_half_even (fmul (x - inject_Z (trunc x)) (inject_Z 1000000)).

Section Ingest_conversion_facts.
Local Open Scope Q_scope.

Lemma utcfromtimestamp_micros (x : Q) :
  Datetime.utcfromtimestamp x =
  if ((Datetime.MIN_US <=? micros x) && (micros x <=? Datetime.MAX_US))%Z
  then Some (micros x) else None.
Proof.
  unfold Datetime.utcfromtimestamp, micros, modf.
  set (us := round_half_even _). set (t := trunc x).
  destruct (1000000 <=? us)%Z; [|destruct (us <? 0)%Z].
  - replace ((t + 1) * 1000000 + (us - 1000000))%Z with (t * 1000000 + us)%Z by lia.
    reflexivity.
  - replace ((t - 1) * 1000000 + (us + 1000000))%Z with (t * 1000000 + us)%Z by lia.
    reflexivity.
  - reflexivity.
Qed.

Lemma trunc_nonneg (x : Q) : 0 <= x -> trunc x = Qfloor x.
Proof.
  destruct x as [n d]. unfold Qle, trunc, Qfloor. simpl. intros Hn.
  apply Z.quot_div_nonneg; lia.
Qed.

Lemma trunc_opp (x : Q) : trunc (- x) = (- trunc x)%Z.
Proof. destruct x as [n d]. unfold trunc. simpl. apply Z.quot_opp_l. lia. Qed.

(** The fractional part [math.modf] returns has the sign of [x] and
    stays below 1 in absolute value. *)
Lemma frac_nonneg (x : Q) :
  0 <= x -> 0 <= x - inject_Z (trunc x) /\ x - inject_Z (trunc x) < 1.
Proof.
  intros Hx. rewrite (trunc_nonneg x Hx).
  pose proof (Qfloor_le x). pose proof (Qlt_floor x) as L.
  rewrite inject_Z_plus in L. change (inject_Z 1) with 1 in L. split; lra.
Qed.

Lemma frac_nonpos (x : Q) :
  x <= 0 -> -1 < x - inject_Z (trunc x) /\ x - inject_Z (trunc x) <= 0.
Proof.
  intros Hx. destruct (frac_nonneg (- x)) as [A B]; [lra|].
  rewrite trunc_opp, inject_Z_opp in A, B. split; lra.
Qed.

Lemma fmul_million_bounds (f : Q) :
  -1 <= f <= 1 ->
  (-1000000 <= round_half_even (fmul f (inject_Z 1000000)) <= 1000000)%Z.
Proof.
  intros [A B].
  assert (E1 : fmul (inject_Z 1) (inject_Z 1000000) == inject_Z (1 * 1000000))
    by (apply fmul_exact; [reflexivity|reflexivity]).
  assert (E2 : fmul (inject_Z (-1)) (inject_Z 1000000) == inject_Z (-1 * 1000000))
    by (apply fmul_exact; [reflexivity|reflexivity]).
  pose proof (fmul_mono_l f (inject_Z 1) (inject_Z 1000000) ltac:(discriminate) B) as U.
  pose proof (fmul_mono_l (inject_Z (-1)) f (inject_Z 1000000) ltac:(discriminate) A) as L.
  apply round_half_even_mono in U, L.
  rewrite (round_half_even_compat _ _ E1), round_half_even_Z in U.
  rewrite (round_half_even_compat _ _ E2), round_half_even_Z in L.
  simpl in U, L. lia.
Qed.

Lemma fmul_million_sign (f : Q) :
  (0 <= f -> (0 <= round_half_even (fmul f (inject_Z 1000000)))%Z) /\
  (f <= 0 -> (round_half_even (fmul f (inject_Z 1000000)) <= 0)%Z).
Proof.
  assert (E0 : fmul (inject_Z 0) (inject_Z 1000000) == inject_Z (0 * 1000000))
    by (apply fmul_exact; [reflexivity|reflexivity]).
  split; intros Hf.
  - pose proof (fmul_mono_l (inject_Z 0) f (inject_Z 1000000) ltac:(discriminate) Hf) as L.
    apply round_half_even_mono in L.
    rewrite (round_half_even_compat _ _ E0), round_half_even_Z in L. exact L.
  - pose proof (fmul_mono_l f (inject_Z 0) (inject_Z 1000000) ltac:(discriminate) Hf) as U.
    apply round_half_even_mono in U.
    rewrite (round_half_even_compat _ _ E0), round_half_even_Z in U. exact U.
Qed.

(** A later float names a later instant. *)
Lemma micros_mono (x y : Q) : x <= y -> (micros x <= micros y)%Z.
Proof.
  intros Hxy. unfold micros.
  pose proof (trunc_mono x y Hxy) as Ht.
  set (fx := x - inject_Z (trunc x)). set (fy := y - inject_Z (trunc y)).
  destruct (Z.eq_dec (trunc x) (trunc y)) as [E|NE].
  - assert (Hf : fx <= fy) by (unfold fx, fy; rewrite E; lra).
    pose proof (round_half_even_mono _ _
                  (fmul_mono_l fx fy (inject_Z 1000000) ltac:(discriminate) Hf)).
    lia.
  - assert (Hlt : (trunc x + 1 <= trunc y)%Z) by lia.
    destruct (Qlt_le_dec x 0) as [Nx|Px]; destruct (Qlt_le_dec y 0) as [Ny|Py].
    + destruct (frac_nonpos x) as [_ Fx]; [lra|].
      destruct (frac_nonpos y) as [Fy Fy']; [lra|].
      pose proof (proj2 (fmul_million_sign fx) Fx).
      pose proof (fmul_million_bounds fy ltac:(unfold fy; lra)). lia.
    + destruct (frac_nonpos x) as [_ Fx]; [lra|].
      destruct (frac_nonneg y Py) as [Fy _].
      pose proof (proj2 (fmul_million_sign fx) Fx).
      pose proof (proj1 (fmul_million_sign fy) Fy). lia.
    + exfalso. lra.
    + destruct (frac_nonneg x Px) as [Fx1 Fx2].
      destruct (frac_nonneg y Py) as [Fy _].
      pose proof (fmul_million_bounds fx ltac:(unfold fx; lra)).
      pose proof (proj1 (fmul_million_sign fy) Fy). lia.
Qed.

End Ingest_conversion_facts.

(** The first and last millisecond timestamps of the years 1 to 9999. *)
Definition MIN_MS : Z := -62135596800000.
Definition MAX_MS : Z := 253402300799999.

Section Timestamp_range.

Lemma of_epoch_millis_micros (t : Z) :
  Datetime.of_epoch_millis t =
  if (Datetime.MIN_US <=? micros (truediv t 1000))
     && (micros (truediv t 1000) <=? Datetime.MAX_US)
  then Some (micros (truediv t 1000)) else None.
Proof. unfold Datetime.of_epoch_millis. apply utcfromtimestamp_micros. Qed.

Lemma micros_of_millis_mono (t1 t2 : Z) :
  t1 <= t2 -> micros (truediv t1 1000) <= micros (truediv t2 1000).
Proof. intros Ht. apply micros_mono, truediv_mono; [reflexivity|exact Ht]. Qed.

Lemma of_epoch_millis_some_iff (t : Z) :
  is_Some (Datetime.of_epoch_millis t) <-> MIN_MS <= t <= MAX_MS.
Proof.
  rewrite of_epoch_millis_micros.
  assert (Lo : micros (truediv MIN_MS 1000) = Datetime.MIN_US)
    by (vm_compute; reflexivity).
  assert (Hi : micros (truediv MAX_MS 1000) = 253402300799998993)
    by (vm_compute; reflexivity).
  assert (Lo' : micros (truediv (MIN_MS - 1) 1000) < Datetime.MIN_US)
    by (vm_compute; reflexivity).
  assert (Hi' : micros (truediv (MAX_MS + 1) 1000) > Datetime.MAX_US)
    by (vm_compute; reflexivity).
  assert (Emax : Datetime.MAX_US = 253402300799999999) by reflexivity.
  split.
  - intros Hs.
    destruct (Z.leb_spec Datetime.MIN_US (micros (truediv t 1000))) as [A|A];
      [|destruct Hs; discriminate].
    destruct (Z.leb_spec (micros (truediv t 1000)) Datetime.MAX_US) as [B|B];
      [|destruct Hs; discriminate].
    split.
    + destruct (Z_le_gt_dec MIN_MS t) as [|G]; [assumption|exfalso].
      pose proof (micros_of_millis_mono t (MIN_MS - 1) ltac:(lia)). lia.
    + destruct (Z_le_gt_dec t MAX_MS) as [|G]; [assumption|exfalso].
      pose proof (micros_of_millis_mono (MAX_MS + 1) t ltac:(lia)). lia.
  - intros [A B].
    pose proof (micros_of_millis_mono MIN_MS t A).
    pose proof (micros_of_millis_mono t MAX_MS B).
    destruct (Z.leb_spec Datetime.MIN_US (micros (truediv t 1000))); [|lia].
    destruct (Z.leb_spec (micros (truediv t 1000)) Datetime.MAX_US); [|lia].
    simpl. eauto.
Qed.

Lemma timestamp_rejected (t : Z) :
  t < MIN_MS \/ MAX_MS < t -> Datetime.of_epoch_millis t = None.
Proof.
  intros Ht. destruct (Datetime.of_epoch_millis t) as [dt|] eqn:E; [|reflexivity].
  exfalso. assert (Hs : is_Some (Datetime.of_epoch_millis t)) by (rewrite E; eauto).
  apply of_epoch_millis_some_iff in Hs. lia.
Qed.

(** The conversion of the ingest handlers accepts exactly the
    timestamps of the years 1 to 9999: from -62135596800000 to
    253402300799999. *)
Theorem timestamp_accepted_iff (t : Z) :
  is_Some (Datetime.of_epoch_millis t) <-> MIN_MS <= t <= MAX_MS.
Proof. apply of_epoch_millis_some_iff. Qed.

(** A later timestamp is stored as a later date, or the same. *)
Lemma of_epoch_millis_mono (t1 t2 d1 d2 : Z) :
  Datetime.of_epoch_millis t1 = Some d1 ->
  Datetime.of_epoch_millis t2 = Some d2 ->
  t1 <= t2 -> d1 <= d2.
Proof.
  rewrite !of_epoch_millis_micros. intros E1 E2 Ht.
  destruct (_ && _) in E1; [|discriminate]. destruct (_ && _) in E2; [|discriminate].
  injection E1 as <-. injection E2 as <-. apply micros_of_millis_mono, Ht.
Qed.

Lemma bson_datetime_mono (a b : Z) :
  a <= b -> Datetime.bson_datetime a <= Datetime.bson_datetime b.
Proof.
  intros Hab. unfold Datetime.bson_datetime, Datetime.of_bson_millis,
    Datetime.bson_millis.
  pose proof (Z.div_le_mono a b 1000 ltac:(lia) Hab). lia.
Qed.

(** Ingest, storage and query never invert the order of two
    timestamps. *)
Theorem round_trip_mono (t1 t2 r1 r2 : Z) :
  round_trip t1 = Some r1 -> round_trip t2 = Some r2 -> t1 <= t2 -> r1 <= r2.
Proof.
  unfold round_trip. intros E1 E2 Ht.
  destruct (Datetime.of_epoch_millis t1) as [d1|] eqn:D1; [|discriminate].
  destruct (Datetime.of_epoch_millis t2) as [d2|] eqn:D2; [|discriminate].
  simpl in E1, E2. injection E1 as <-. injection E2 as <-.
  apply to_epoch_millis_mono, bson_datetime_mono.
  eapply of_epoch_millis_mono; eauto.
Qed.

End Timestamp_range.

(** ** How far rounding moves a value *)

Section Rounding_error.
Local Open Scope Q_scope.

Lemma round_half_even_error (y : Q) :
  - (1 # 2) <= inject_Z (round_half_even y) - y <= 1 # 2.
Proof.
  unfold round_half_even.
  pose proof (Qfloor_le y) as A. pose proof (Qlt_floor y) as B.
  rewrite inject_Z_plus in B. change (inject_Z 1) with 1 in B.
  destruct (Qcompare_spec (y - inject_Z (Qfloor y)) (1 # 2)) as [E|L|G].
  - destruct (Z.even (Qfloor y)); rewrite ?inject_Z_plus;
      change (inject_Z 1) with 1; lra.
  - lra.
  - rewrite inject_Z_plus. change (inject_Z 1) with 1. lra.
Qed.

Lemma round_half_even_near (y : Q) (n : Z) :
  inject_Z n - (1 # 2) < y -> y < inject_Z n + (1 # 2) -> round_half_even y = n.
Proof.
  intros A B. pose proof (round_half_even_error y) as [E1 E2].
  assert (L : inject_Z (n - 1) < inject_Z (round_half_even y)).
  { rewrite <- Z.add_opp_r, inject_Z_plus, inject_Z_opp. change (inject_Z 1) with 1. lra. }
  assert (U : inject_Z (round_half_even y) < inject_Z (n + 1)).
  { rewrite inject_Z_plus. change (inject_Z 1) with 1. lra. }
  rewrite <- Zlt_Qlt in L, U. lia.
Qed.

Lemma Qfloor_between (y : Q) (n : Z) :
  inject_Z n <= y -> y < inject_Z n + 1 -> Qfloor y = n.
Proof.
  intros A B. pose proof (Qfloor_le y) as C. pose proof (Qlt_floor y) as D.
  rewrite inject_Z_plus in D. change (inject_Z 1) with 1 in D.
  assert (L : inject_Z (n - 1) < inject_Z (Qfloor y)).
  { rewrite <- Z.add_opp_r, inject_Z_plus, inject_Z_opp. change (inject_Z 1) with 1. lra. }
  assert (U : inject_Z (Qfloor y) < inject_Z (n + 1)).
  { rewrite inject_Z_plus. change (inject_Z 1) with 1. lra. }
  rewrite <- Zlt_Qlt in L, U. lia.
Qed.

(** Rounding a positive value moves it by at most half a unit in the
    last place. *)
Lemma RNpos_error (x : Q) :
  0 < x ->
  x - 2 ^ (ilog2 x - 53) <= RNpos x /\ RNpos x <= x + 2 ^ (ilog2 x - 53).
Proof.
  intros Hx. unfold RNpos. set (s := (ilog2 x - 52)%Z).
  pose proof (pow2_pos s) as Hs.
  pose proof (round_half_even_error (x / 2 ^ s)) as [E1 E2].
  set (m := inject_Z (round_half_even (x / 2 ^ s))) in *.
  assert (Ey : x / 2 ^ s * 2 ^ s == x) by (field; lra).
  assert (Eh : 2 ^ (ilog2 x - 53) == (1 # 2) * 2 ^ s).
  { replace (ilog2 x - 53)%Z with (-1 + s)%Z by (unfold s; lia).
    rewrite pow2_add. reflexivity. }
  rewrite Eh.
  assert (M1 : - (1 # 2) * 2 ^ s <= (m - x / 2 ^ s) * 2 ^ s)
    by (apply Qmult_le_compat_r; lra).
  assert (M2 : (m - x / 2 ^ s) * 2 ^ s <= (1 # 2) * 2 ^ s)
    by (apply Qmult_le_compat_r; lra).
  assert (Em : (m - x / 2 ^ s) * 2 ^ s == m * 2 ^ s - x).
  { rewrite <- Ey at 2. ring. }
  rewrite Em in M1, M2. split; lra.
Qed.

(** Below [2^k] rounding moves a value by at most [2^(k-54)]. *)
Lemma RN_error (x : Q) (k : Z) :
  0 <= x -> x < 2 ^ k ->
  x - 2 ^ (k - 54) <= RN x /\ RN x <= x + 2 ^ (k - 54).
Proof.
  intros Hx Hk. pose proof (pow2_pos (k - 54)) as Hp. unfold RN.
  destruct (Qcompare_spec x 0) as [E|L|G]; [split; lra|exfalso; lra|].
  destruct (RNpos_error x G) as [A B]. destruct (ilog2_spec x G) as [Lo _].
  assert (Hi : (ilog2 x < k)%Z).
  { apply (Qpower_lt_compat_l_inv 2); [|reflexivity]. eapply Qle_lt_trans; eauto. }
  pose proof (pow2_le (ilog2 x - 53) (k - 54) ltac:(lia)). split; lra.
Qed.

End Rounding_error.

(** ** Timestamps until the year 2242 *)

(** [2^33] seconds after the epoch, in milliseconds: 2242-03-16. *)
Definition EXACT_MS : Z := 8589934592000.

Section Within_one_millisecond.
Local Open Scope Q_scope.

Local Ltac by_integers := unfold Qle, Qlt; simpl; lia.

Local Ltac pow2_constants :=
  change (2 ^ 33) with 8589934592 in *;
  change (2 ^ (33 - 54)) with (1 # 2097152) in *;
  change (2 ^ 20) with 1048576 in *;
  change (2 ^ (20 - 54)) with (1 # 17179869184) in *;
  change (2 ^ 43) with 8796093022208 in *;
  change (2 ^ (43 - 54)) with (1 # 2048) in *.

(** The seconds the handlers compute from a timestamp are off by less
    than half a microsecond. *)
Lemma seconds_error (a b t : Z) :
  (0 < b)%Z -> (a * 1000 = t * b)%Z -> (0 <= t < EXACT_MS)%Z ->
  inject_Z t / 1000 - (1 # 2097152) <= truediv a b /\
  truediv a b <= inject_Z t / 1000 + (1 # 2097152).
Proof.
  intros Hb Hab [T0 T1]. unfold truediv.
  assert (Bpos : 0 < inject_Z b) by (unfold Qlt; simpl; lia).
  assert (E : inject_Z a / inject_Z b == inject_Z t / 1000).
  { apply (Qmult_inj_r _ _ (inject_Z b * 1000)); [lra|].
    transitivity (inject_Z a * 1000); [field; lra|].
    transitivity (inject_Z t * inject_Z b); [|field].
    change 1000 with (inject_Z 1000). rewrite <- !inject_Z_mult, Hab. reflexivity. }
  rewrite (RN_compat _ _ E).
  assert (Q0 : 0 <= inject_Z t) by by_integers.
  assert (Q1 : inject_Z t < 8589934592000) by (unfold EXACT_MS in T1; by_integers).
  pose proof (RN_error (inject_Z t / 1000) 33) as R. pow2_constants.
  apply R; [|].
  - apply Qle_shift_div_l; lra.
  - apply Qlt_shift_div_r; lra.
Qed.

Lemma of_epoch_millis_below_2242 (t : Z) :
  (0 <= t < EXACT_MS)%Z -> Datetime.of_epoch_millis t = Some (t * 1000)%Z.
Proof.
  intros Ht. pose proof Ht as [T0 T1]. unfold EXACT_MS in T1.
  pose proof (Z.div_mod t 1000 ltac:(lia)) as Et.
  pose proof (Z.mod_pos_bound t 1000 ltac:(lia)) as Hr.
  set (q := (t / 1000)%Z) in *. set (r := (t mod 1000)%Z) in *.
  destruct (Z.eq_dec r 0%Z) as [R0|R1].
  - replace t with (q * 1000)%Z at 1 by lia.
    rewrite of_epoch_millis_whole_seconds by lia. f_equal. lia.
  - rewrite of_epoch_millis_micros.
    assert (Em : micros (truediv t 1000) = (t * 1000)%Z).
    { destruct (seconds_error t 1000 t ltac:(lia) ltac:(lia) Ht) as [A B].
      set (x := truediv t 1000) in *.
      assert (EX : inject_Z t == 1000 * inject_Z q + inject_Z r).
      { change 1000 with (inject_Z 1000). rewrite <- inject_Z_mult, <- inject_Z_plus.
        rewrite Et at 1. reflexivity. }
      assert (ET : inject_Z t / 1000 * 1000 == inject_Z t) by (field; lra).
      assert (R1' : 1 <= inject_Z r) by by_integers.
      assert (R2' : inject_Z r <= 999) by by_integers.
      assert (Q0' : (0 <= q)%Z) by (unfold q; apply Z.div_pos; lia).
      assert (Q0 : 0 <= inject_Z q) by by_integers.
      assert (Tq : trunc x = q).
      { rewrite trunc_nonneg by lra. apply Qfloor_between; lra. }
      unfold micros. rewrite Tq.
      set (f := x - inject_Z q).
      pose proof (RN_error (f * inject_Z 1000000) 20) as R.
      change (inject_Z 1000000) with 1000000 in *. pow2_constants.
      destruct R as [C D]; [unfold f; lra|unfold f; lra|].
      fold (fmul f 1000000) in C, D.
      rewrite (round_half_even_near _ (1000 * r)); [lia| |];
        rewrite inject_Z_mult; change (inject_Z 1000) with 1000; unfold f in *; lra. }
    rewrite Em. unfold Datetime.MIN_US, Datetime.MAX_US.
    destruct (Z.leb_spec (-62135596800 * 1000000) (t * 1000)); [|lia].
    destruct (Z.leb_spec (t * 1000) (253402300799 * 1000000 + 999999)); [|lia].
    reflexivity.
Qed.

(** The query conversion gives the stored millisecond or the one before. *)
Lemma to_epoch_millis_within_one (t : Z) :
  (1 <= t < EXACT_MS)%Z ->
  Datetime.to_epoch_millis (t * 1000) = t \/
  Datetime.to_epoch_millis (t * 1000) = (t - 1)%Z.
Proof.
  intros Ht. pose proof Ht as [T0 T1]. unfold EXACT_MS in T1.
  unfold Datetime.to_epoch_millis, Datetime.total_seconds, Datetime.sub,
    Datetime.epoch.
  rewrite Z.sub_0_r. change (10 ^ 6)%Z with 1000000%Z.
  destruct (seconds_error (t * 1000) 1000000 t ltac:(lia) ltac:(lia) ltac:(lia))
    as [A B].
  set (y := truediv (t * 1000) 1000000) in *.
  assert (ET : inject_Z t / 1000 * 1000 == inject_Z t) by (field; lra).
  assert (Q1 : 1 <= inject_Z t) by by_integers.
  assert (Q2 : inject_Z t <= 8589934591999) by by_integers.
  pose proof (RN_error (y * inject_Z 1000) 43) as R.
  change (inject_Z 1000) with 1000 in *. pow2_constants.
  destruct R as [C D]; [lra|lra|].
  fold (fmul y 1000) in C, D. set (z := fmul y 1000) in *.
  rewrite trunc_nonneg by lra.
  destruct (Qlt_le_dec z (inject_Z t)) as [L|G].
  - right. apply Qfloor_between;
      rewrite <- Z.add_opp_r, inject_Z_plus, inject_Z_opp;
      change (inject_Z 1) with 1; lra.
  - left. apply Qfloor_between; lra.
Qed.

(** From 1970 until 2242 the ingest conversion and the storage are
    exact: the date computed for a timestamp is the instant it names, and
    the collection keeps it as it is. *)
Theorem ingest_exact_until_2242 (t : Z) :
  (0 <= t < EXACT_MS)%Z ->
  Datetime.of_epoch_millis t = Some (t * 1000)%Z /\
  Datetime.bson_datetime (t * 1000) = (t * 1000)%Z.
Proof.
  intros Ht. split; [apply of_epoch_millis_below_2242, Ht|].
  unfold Datetime.bson_datetime, Datetime.bson_millis, Datetime.of_bson_millis.
  rewrite Z.div_mul by lia. reflexivity.
Qed.

(** From 1970 until 2242 a timestamp comes back from a query as it was
    ingested or one millisecond lower. *)
Theorem round_trip_within_one (t : Z) :
  (0 <= t < EXACT_MS)%Z ->
  round_trip t = Some t \/ round_trip t = Some (t - 1)%Z.
Proof.
  intros Ht. unfold round_trip. rewrite (of_epoch_millis_below_2242 t Ht). simpl.
  assert (Eb : Datetime.bson_datetime (t * 1000) = (t * 1000)%Z).
  { unfold Datetime.bson_datetime, Datetime.bson_millis, Datetime.of_bson_millis.
    rewrite Z.div_mul by lia. reflexivity. }
  rewrite Eb. destruct (Z.eq_dec t 0%Z) as [->|Hn]; [left; reflexivity|].
  destruct (to_epoch_millis_within_one t ltac:(lia)) as [-> | ->]; auto.
Qed.

End Within_one_millisecond.

(** * Further properties of the ingest handlers *)

(** What a POST request carries and what its route answers on success;
    a GET carries none of it. *)
Definition request_timestamp (r : request) : option Z :=
  match r with
  | AppPostTraffic data => Some (timestamp data)
  | AppPostEnvironmental data | MainPostEnvironmental data => Some (timestamp data)
  | AppPostWeather data | MainPostWeather data => Some (timestamp data)
  | AppPostAirQuality data | MainPostAirQuality data => Some (timestamp data)
  | AppGetData _ _ => None
  end.

Definition request_device (r : request) : option string :=
  match r with
  | AppPostTraffic data => Some (deviceId data)
  | AppPostEnvironmental data | MainPostEnvironmental data => Some (deviceId data)
  | AppPostWeather data | MainPostWeather data => Some (deviceId data)
  | AppPostAirQuality data | MainPostAirQuality data => Some (deviceId data)
  | AppGetData _ _ => None
  end.

Definition request_values (r : request) : gmap string value :=
  match r with
  | AppPostTraffic data => values_dict (values data)
  | AppPostEnvironmental data | MainPostEnvironmental data => values_dict (values data)
  | AppPostWeather data | MainPostWeather data => values_dict (values data)
  | AppPostAirQuality data | MainPostAirQuality data => values_dict (values data)
  | AppGetData _ _ => ∅
  end.

(** The fields the models declare as [int]. *)
Definition request_ints (r : request) : list Z :=
  match r with
  | AppPostTraffic data =>
      let v := values data in
      [peaton v; bicicleta v; carro v; moto v; bus v; camion v]
  | AppPostEnvironmental data | MainPostEnvironmental data =>
      let v := values data in
      [solarRadiationMax v; solarRadiationMin v; solarRadiationAvg v]
  | AppPostWeather data | MainPostWeather data =>
      let v := values data in
      [windSpeedMax v; windSpeedMin v; windSpeedAvg v; windDirectionAvg v]
  | AppPostAirQuality _ | MainPostAirQuality _ | AppGetData _ _ => []
  end.

(** The [data_type] the handler adds, if it adds one. *)
Definition request_tag (r : request) : option string :=
  match r with
  | AppPostTraffic _ => Some "traffic"
  | AppPostEnvironmental _ => Some "environmental"
  | AppPostWeather _ => Some "weather"
  | AppPostAirQuality _ => Some "air_quality"
  | _ => None
  end.

Definition success_code (r : request) : Z :=
  match r with
  | AppPostTraffic _ | AppPostEnvironmental _ | AppPostWeather _
  | AppPostAirQuality _ => HTTP_201_CREATED
  | _ => HTTP_200_OK
  end.

(** The error the next exchange with the server ends in, if it fails. *)
Definition next_exchange_error (w : world) : option string :=
  match exchanges w with
  | Some msg :: _ => Some msg
  | _ => None
  end.

(** What a POST request leaves in the collection when it goes through,
    the date [dt] being the one its timestamp names. *)
Definition request_document (r : request) (dt : Z) (oid : N)
  : gmap string value :=
  match r with
  | AppPostTraffic data => stored_document (request_tag r) data dt oid
  | AppPostEnvironmental data | MainPostEnvironmental data =>
      stored_document (request_tag r) data dt oid
  | AppPostWeather data | MainPostWeather data =>
      stored_document (request_tag r) data dt oid
  | AppPostAirQuality data | MainPostAirQuality data =>
      stored_document (request_tag r) data dt oid
  | AppGetData _ _ => ∅
  end.

(** Every outcome of a POST request. *)
Definition post_outcome (r : request) (t : Z) (w : world) : Z * world :=
  match Datetime.of_epoch_millis t with
  | None => (500, w)
  | Some dt =>
      if forallb fits_int64 (request_ints r) then
        match next_exchange_error w with
        | Some _ => (500, after_insert w None)
        | None =>
            (success_code r,
             after_insert w (Some (request_document r dt (next_oid w))))
        end
      else (500, {| collection := collection w; next_oid := (next_oid w + 1)%N;
                    exchanges := exchanges w |})
  end.

Section Post_facts.
Context `{Platform}.

Lemma bson_encodable_insert_new (k : string) (v : value) (m : gmap string value) :
  m !! k = None ->
  bson_encodable (VDict (<[k := v]> m)) = bson_encodable v && bson_encodable (VDict m).
Proof.
  intros Hk. apply eq_true_iff_eq.
  rewrite andb_true_iff, !bson_encodable_dict, map_Forall_insert by exact Hk.
  reflexivity.
Qed.

(** The values of a payload fit BSON when its [int] fields fit 64 bits;
    the [float] fields always do. *)
Lemma values_encodable (r : request) :
  bson_encodable (VDict (request_values r)) = forallb fits_int64 (request_ints r).
Proof.
  destruct r as [[? ? v]|[? ? v]|[? ? v]|[? ? v]|? ?|[? ? v]|[? ? v]|[? ? v]];
    unfold request_values, request_ints, values_dict, values,
      TrafficValues_model, EnvironmentalValues_model, WeatherValues_model,
      AirQualityValues_model;
    rewrite ?bson_encodable_insert_new by (by simplify_map_eq);
    reflexivity.
Qed.

Lemma sent_document_encodable_values {V} `{BaseModel V} (tag : option string)
    (data : SensorData V) (dt : Z) (oid : N) :
  bson_encodable (VDict (sent_document tag data dt oid))
  = bson_encodable (VDict (values_dict (values data))).
Proof.
  rewrite sent_document_encodable. unfold sent_document, add_tag, dict.
  rewrite (insert_insert_ne _ "timestamp" "deviceId") by done.
  rewrite insert_insert_eq.
  rewrite !bson_encodable_insert_new by (by simplify_map_eq).
  simpl. apply andb_true_r.
Qed.

Lemma serve_ingest_outcome {V} `{BaseModel V} (code : Z) (tag : option string)
    (data : SensorData V) (w : world) :
  (let '(a, w') := serve code (catch_all (ingest tag data)) w in (status a, w')) =
  match Datetime.of_epoch_millis (timestamp data) with
  | None => (500, w)
  | Some dt =>
      if bson_encodable (VDict (values_dict (values data))) then
        match next_exchange_error w with
        | Some _ => (500, after_insert w None)
        | None =>
            (code, after_insert w (Some (stored_document tag data dt (next_oid w))))
        end
      else (500, {| collection := collection w; next_oid := (next_oid w + 1)%N;
                    exchanges := exchanges w |})
  end.
Proof.
  rewrite serve_catch_all, ingest_run. unfold next_exchange_error.
  destruct (Datetime.of_epoch_millis _) as [dt|]; [|reflexivity].
  rewrite sent_document_encodable_values.
  destruct (bson_encodable _); [|reflexivity].
  destruct (exchanges w) as [|[msg|] rest]; reflexivity.
Qed.

(** Every POST handler of the two modules, in one equation. *)
Lemma handle_post_outcome (r : request) (t : Z) (w : world) :
  request_timestamp r = Some t -> handle r w = post_outcome r t w.
Proof.
  intros Ht. unfold post_outcome. rewrite <- values_encodable.
  destruct app_receive_ingest as (A1 & A2 & A3 & A4).
  destruct main_receive_ingest as (M1 & M2 & M3).
  destruct r as [data|data|data|data|? ?|data|data|data];
    try discriminate Ht; injection Ht as <-; unfold handle.
  - unfold AppMain.POST_traffic_data. rewrite A1. apply serve_ingest_outcome.
  - unfold AppMain.POST_environmental_data. rewrite A2. apply serve_ingest_outcome.
  - unfold AppMain.POST_weather_data. rewrite A3. apply serve_ingest_outcome.
  - unfold AppMain.POST_airquality_data. rewrite A4. apply serve_ingest_outcome.
  - unfold Main.POST_environmental_data. rewrite M1. apply serve_ingest_outcome.
  - unfold Main.POST_weather_data. rewrite M2. apply serve_ingest_outcome.
  - unfold Main.POST_airquality_data. rewrite M3. apply serve_ingest_outcome.
Qed.

End Post_facts.

Section Post_properties.
Context `{Platform}.

Lemma fits_int64_bounds (n : Z) : fits_int64 n = true <-> - 2 ^ 63 <= n < 2 ^ 63.
Proof. unfold fits_int64. rewrite andb_true_iff, Z.leb_le, Z.ltb_lt. reflexivity. Qed.

Lemma forallb_fits_int64 (l : list Z) :
  forallb fits_int64 l = true <-> Forall (fun n => - 2 ^ 63 <= n < 2 ^ 63) l.
Proof.
  rewrite forallb_forall, Forall_forall. split; intros Hl n Hn.
  - apply fits_int64_bounds, Hl, list_elem_of_In, Hn.
  - apply fits_int64_bounds, Hl, list_elem_of_In, Hn.
Qed.

(** A POST request is answered with the success code of its route
    exactly when its timestamp lies in the years 1 to 9999, its [int]
    values fit 64 bits and the exchange with the server does not fail. *)
Theorem post_accepted_iff (r : request) (t : Z) (w : world) :
  request_timestamp r = Some t ->
  fst (handle r w) = success_code r <->
  MIN_MS <= t <= MAX_MS /\
  Forall (fun n => - 2 ^ 63 <= n < 2 ^ 63) (request_ints r) /\
  next_exchange_error w = None.
Proof.
  intros Ht. rewrite (handle_post_outcome r t w Ht). unfold post_outcome.
  rewrite <- of_epoch_millis_some_iff, <- forallb_fits_int64.
  assert (Hc : success_code r <> 500) by (destruct r; discriminate).
  destruct (Datetime.of_epoch_millis t) as [dt|].
  - destruct (forallb fits_int64 (request_ints r)).
    + destruct (next_exchange_error w); simpl; split.
      * intros E. exfalso. apply Hc. symmetry. exact E.
      * intros (_ & _ & E). discriminate E.
      * intros _. eauto.
      * intros _. reflexivity.
    + simpl. split; [intros E; exfalso; apply Hc; symmetry; exact E|].
      intros (_ & E & _). discriminate E.
  - simpl. split; [intros E; exfalso; apply Hc; symmetry; exact E|].
    intros ([dt E] & _). discriminate E.
Qed.

(** A POST request whose timestamp lies outside the years 1 to 9999 is
    answered 500 and leaves everything as it was: nothing is stored, no
    [ObjectId] is drawn, the server is not contacted. *)
Theorem post_out_of_range_untouched (r : request) (t : Z) (w : world) :
  request_timestamp r = Some t ->
  t < MIN_MS \/ MAX_MS < t ->
  handle r w = (500, w).
Proof.
  intros Ht Hr. rewrite (handle_post_outcome r t w Ht). unfold post_outcome.
  rewrite (timestamp_rejected t Hr). reflexivity.
Qed.

Lemma request_values_roundtrip (r : request) :
  bson_roundtrip <$> request_values r = request_values r.
Proof.
  destruct r as [[? ? v]|[? ? v]|[? ? v]|[? ? v]|? ?|[? ? v]|[? ? v]|[? ? v]];
    unfold request_values, values_dict, values,
      TrafficValues_model, EnvironmentalValues_model, WeatherValues_model,
      AirQualityValues_model;
    rewrite ?fmap_insert, fmap_empty; reflexivity.
Qed.

Lemma stored_document_fields {V} `{BaseModel V} (tag : option string)
    (data : SensorData V) (dt : Z) (oid : N) :
  let d := stored_document tag data dt oid in
  d !! "_id" = Some (VObjectId oid) /\
  d !! "deviceId" = Some (VStr (deviceId data)) /\
  d !! "values" = Some (VDict (bson_roundtrip <$> values_dict (values data))) /\
  d !! "data_type" = VStr <$> tag.
Proof.
  unfold stored_document, sent_document, add_tag, dict. simpl.
  rewrite !lookup_fmap. destruct tag; simpl; repeat apply conj; by simplify_map_eq.
Qed.

Lemma request_document_fields (r : request) (t : Z) (dev : string) (dt : Z) (oid : N) :
  request_timestamp r = Some t ->
  request_device r = Some dev ->
  let d := request_document r dt oid in
  d !! "_id" = Some (VObjectId oid) /\
  d !! "deviceId" = Some (VStr dev) /\
  d !! "timestamp" = Some (VDatetime (Datetime.bson_datetime dt)) /\
  d !! "values" = Some (VDict (request_values r)) /\
  d !! "data_type" = VStr <$> request_tag r.
Proof.
  intros Ht Hd. pose proof (request_values_roundtrip r) as Hv.
  destruct r as [data|data|data|data|? ?|data|data|data]; try discriminate Ht;
    injection Hd as <-; cbn [request_document];
    match goal with
    | |- context [stored_document ?tg data dt ?o] =>
        destruct (stored_document_fields tg data dt o) as (F1 & F2 & F3 & F4)
    end;
    (repeat apply conj;
       [exact F1|exact F2|apply stored_document_timestamp| |exact F4]);
    rewrite F3; cbn [request_values] in *; rewrite Hv; reflexivity.
Qed.

(** The document a POST request that goes through leaves at the end of
    the collection: the driver's next [ObjectId], the device and the
    values of the payload unchanged, the date its timestamp names cut
    to milliseconds, and the category if the handler is one of
    [app_main.py]. *)
Theorem post_stored_document (r : request) (t : Z) (dev : string) (w : world) :
  request_timestamp r = Some t ->
  request_device r = Some dev ->
  fst (handle r w) = success_code r ->
  exists dt d,
    Datetime.of_epoch_millis t = Some dt /\
    collection (snd (handle r w)) = collection w ++ [d] /\
    d !! "_id" = Some (VObjectId (next_oid w)) /\
    d !! "deviceId" = Some (VStr dev) /\
    d !! "timestamp" = Some (VDatetime (Datetime.bson_datetime dt)) /\
    d !! "values" = Some (VDict (request_values r)) /\
    d !! "data_type" = VStr <$> request_tag r.
Proof.
  intros Ht Hd. rewrite (handle_post_outcome r t w Ht). unfold post_outcome.
  assert (Hc : success_code r <> 500) by (destruct r; discriminate).
  destruct (Datetime.of_epoch_millis t) as [dt|];
    [|intros E; exfalso; apply Hc; symmetry; exact E].
  destruct (forallb _ _); [|intros E; exfalso; apply Hc; symmetry; exact E].
  destruct (next_exchange_error w); [intros E; exfalso; apply Hc; symmetry; exact E|].
  intros _. exists dt, (request_document r dt (next_oid w)).
  split; [reflexivity|]. split; [reflexivity|].
  apply (request_document_fields r t dev dt (next_oid w) Ht Hd).
Qed.

(** No request is answered with anything but the success code of its
    route or 500: the service never answers with a 4xx status. *)
Theorem status_is_success_or_500 (r : request) (w : world) :
  fst (handle r w) = success_code r \/ fst (handle r w) = 500.
Proof.
  destruct (request_timestamp r) as [t|] eqn:Ht.
  - rewrite (handle_post_outcome r t w Ht). unfold post_outcome.
    destruct (Datetime.of_epoch_millis t); [|right; reflexivity].
    destruct (forallb _ _); [|right; reflexivity].
    destruct (next_exchange_error w); [right|left]; reflexivity.
  - destruct r as [?|?|?|?|dev lim|?|?|?]; try discriminate Ht.
    unfold handle, AppMain.GET_data, AppMain.get_device_data.
    fold (catch_all (AppMain.get_device_data_body dev (default 100 lim))).
    rewrite serve_catch_all.
    destruct (AppMain.get_device_data_body _ _ w) as [[l|e] w'];
      [left|right]; reflexivity.
Qed.

End Post_properties.

(** * Further properties of the query handler *)

(** The documents of a device, in the order of the collection. *)
Definition device_documents (deviceId : string) (w : world)
  : list (gmap string value) :=
  List.filter (Motor.matches deviceId) (collection w).

(** A document the loop of [get_device_data] can convert: it has an
    [_id] and its [timestamp] is a date. *)
Definition convertible (d : gmap string value) : Prop :=
  is_Some (d !! "_id") /\ is_Some (date_of d).

Section Query_properties.
Context `{Platform}.

Lemma found_positive (deviceId : string) (limit : Z) (w : world) :
  1 <= limit ->
  found deviceId limit w
  = take (Z.to_nat limit) (sort_desc (device_documents deviceId w)).
Proof.
  intros Hl. unfold found, Motor.run_cursor, device_documents. simpl.
  destruct (Z.eqb_spec limit 0) as [E|_]; [lia|].
  rewrite Z.abs_eq by lia. rewrite take_take. f_equal. lia.
Qed.

Lemma found_matches (deviceId : string) (limit : Z) (w : world) :
  Forall (fun d => d !! "deviceId" = Some (VStr deviceId)) (found deviceId limit w).
Proof.
  assert (Hs : Forall (fun d => d !! "deviceId" = Some (VStr deviceId))
                 (sort_desc (device_documents deviceId w))).
  { rewrite (sort_desc_perm _). apply Forall_forall. intros d Hd.
    apply list_elem_of_In, List.filter_In in Hd as [_ Hm].
    unfold Motor.matches in Hm.
    destruct (d !! "deviceId") as [[| |s| | |]|]; try discriminate Hm.
    apply String.eqb_eq in Hm. subst s. reflexivity. }
  unfold found, Motor.run_cursor. simpl. fold (device_documents deviceId w).
  apply Forall_take. destruct (limit =? 0); [exact Hs|apply Forall_take, Hs].
Qed.

(** What the loop makes of a list of documents does not depend on the
    state it runs in. *)
Lemma for_each_convert_result (docs : list (gmap string value)) (w1 w2 : world) :
  fst (for_each AppMain.convert_item docs w1)
  = fst (for_each AppMain.convert_item docs w2).
Proof.
  revert w1 w2. induction docs as [|doc docs IH]; intros w1 w2; [reflexivity|]. simpl.
  unfold mbind, M_bind, bind.
  pose proof (convert_item_world doc w1) as H1.
  pose proof (convert_item_world doc w2) as H2.
  assert (Hd : fst (AppMain.convert_item doc w1) = fst (AppMain.convert_item doc w2)).
  { unfold AppMain.convert_item, getitem, mbind, M_bind, bind, minus_epoch, ret, raise.
    destruct (doc !! "_id"); [|reflexivity].
    destruct (_ !! "timestamp") as [[]|]; reflexivity. }
  destruct (AppMain.convert_item doc w1) as [[i1|e1] w1'],
           (AppMain.convert_item doc w2) as [[i2|e2] w2']; simpl in *;
    subst; try discriminate Hd; [|injection Hd as ->; reflexivity].
  injection Hd as ->. specialize (IH w1 w2).
  destruct (for_each AppMain.convert_item docs w1) as [[l1|x1] ?],
           (for_each AppMain.convert_item docs w2) as [[l2|x2] ?]; simpl in *;
    try discriminate IH; congruence.
Qed.

(** The answer of a query, case by case. *)
Lemma GET_data_run (deviceId : string) (limit : option Z) (w : world) :
  fst (AppMain.GET_data deviceId limit w) =
  let l := default 100 limit in
  if l <? 0 then
    {| status := 500;
       body := Detail (str_exn (ValueError "length must be non-negative")) |}
  else
    match next_exchange_error w with
    | Some msg => {| status := 500; body := Detail (str_exn (PyMongoError msg)) |}
    | None =>
        match found deviceId l w with
        | [] => {| status := 500;
                   body := Detail (str_exn (HTTPException 404
                                              "Dispositivo no encontrado")) |}
        | docs =>
            match fst (for_each AppMain.convert_item docs w) with
            | Return items => {| status := 200; body := Body items |}
            | Raise e => {| status := 500; body := Detail (str_exn e) |}
            end
        end
    end.
Proof.
  unfold AppMain.GET_data, AppMain.get_device_data.
  fold (catch_all (AppMain.get_device_data_body deviceId (default 100 limit))).
  rewrite serve_catch_all, get_device_data_body_run. unfold next_exchange_error.
  cbv zeta. destruct (default 100 limit <? 0); [reflexivity|].
  pose proof for_each_convert_result as Hf.
  destruct (exchanges w) as [|[msg|] rest]; try reflexivity;
    (destruct (found deviceId (default 100 limit) w) as [|doc docs]; [reflexivity|];
     match goal with
     | |- context [for_each AppMain.convert_item (doc :: docs) ?w1] =>
         pose proof (Hf (doc :: docs) w1 w) as Hw;
         destruct (for_each AppMain.convert_item (doc :: docs) w1) as [[l1|e1] w1'];
         destruct (for_each AppMain.convert_item (doc :: docs) w) as [[l2|e2] w2'];
         simpl in Hw; try discriminate Hw; injection Hw as ->; reflexivity
     end).
Qed.

(** A negative [limit] is answered 500 and leaves everything as it was;
    the server is not contacted. *)
Theorem query_negative_limit (deviceId : string) (limit : Z) (w : world) :
  limit < 0 ->
  AppMain.GET_data deviceId (Some limit) w
  = ({| status := 500;
        body := Detail (str_exn (ValueError "length must be non-negative")) |}, w).
Proof.
  intros Hl. unfold AppMain.GET_data, AppMain.get_device_data.
  fold (catch_all (AppMain.get_device_data_body deviceId (default 100 (Some limit)))).
  rewrite serve_catch_all, get_device_data_body_run. simpl.
  destruct (Z.ltb_spec limit 0); [reflexivity|lia].
Qed.

Lemma GET_data_records_found (deviceId : string) (limit : Z) (w : world)
    (items : list (gmap string value)) :
  records (fst (AppMain.GET_data deviceId (Some limit) w)) = Some items ->
  1 <= limit /\ found deviceId limit w <> [] /\
  Forall2 converted (found deviceId limit w) items.
Proof.
  intros E. pose proof (GET_data_records _ _ _ _ E) as [Hl Hc]. simpl in Hl, Hc.
  rewrite GET_data_run in E. simpl in E.
  destruct (limit <? 0); [discriminate E|].
  destruct (next_exchange_error w); [discriminate E|].
  assert (Hn : found deviceId limit w <> []).
  { destruct (found deviceId limit w); [discriminate E|discriminate]. }
  split; [|split; assumption].
  destruct (Z.eq_dec limit 0) as [->|]; [|lia]. exfalso. apply Hn. reflexivity.
Qed.

(** A query returns only records of the device it was asked for. *)
Theorem query_only_requested_device (deviceId : string) (limit : option Z)
    (w : world) (items : list (gmap string value)) :
  records (fst (AppMain.GET_data deviceId limit w)) = Some items ->
  Forall (fun item => item !! "deviceId" = Some (VStr deviceId)) items.
Proof.
  intros E. apply GET_data_records in E as [_ Hc].
  pose proof (found_matches deviceId (default 100 limit) w) as Hm.
  induction Hc as [|doc item docs items (id & dt & _ & _ & ->) _ IH];
    constructor; inversion Hm; subst; [|apply IH; assumption].
  rewrite !lookup_insert_ne by done. assumption.
Qed.

(** A query that returns records returns at least one, and as many as
    the device has documents, up to [limit]. *)
Theorem query_count (deviceId : string) (limit : Z) (w : world)
    (items : list (gmap string value)) :
  records (fst (AppMain.GET_data deviceId (Some limit) w)) = Some items ->
  items <> [] /\
  Z.of_nat (length items)
  = Z.min limit (Z.of_nat (length (device_documents deviceId w))).
Proof.
  intros E. apply GET_data_records_found in E as (Hl & Hn & Hc).
  pose proof (Forall2_length _ _ _ Hc) as Hlen. split.
  - intros ->. destruct (found deviceId limit w); [congruence|discriminate Hlen].
  - rewrite <- Hlen, found_positive, length_take by exact Hl.
    rewrite (Permutation_length (sort_desc_perm _)). lia.
Qed.

Lemma matches_deviceId (deviceId : string) (d : gmap string value) :
  Motor.matches deviceId d = true <-> d !! "deviceId" = Some (VStr deviceId).
Proof.
  unfold Motor.matches. split.
  - destruct (d !! "deviceId") as [[| |s| | |]|]; try discriminate.
    intros Hm. apply String.eqb_eq in Hm. subst s. reflexivity.
  - intros ->. apply String.eqb_refl.
Qed.



Lemma converted_convertible (doc item : gmap string value) :
  converted doc item -> convertible doc.
Proof.
  intros (id & dt & Hid & Hts & _). split; [eauto|]. unfold date_of. rewrite Hts. eauto.
Qed.

Lemma GET_data_status_records (deviceId : string) (limit : option Z) (w : world) :
  records (fst (AppMain.GET_data deviceId limit w)) = None ->
  status (fst (AppMain.GET_data deviceId limit w)) = 500.
Proof.
  unfold AppMain.GET_data, AppMain.get_device_data.
  fold (catch_all (AppMain.get_device_data_body deviceId (default 100 limit))).
  rewrite serve_catch_all.
  destruct (AppMain.get_device_data_body _ _ w) as [[l|e] w']; [discriminate|reflexivity].
Qed.


(** One document of the device without an [_id] or without a date makes
    the query fail as a whole when [limit] does not cut it off. *)
Theorem query_malformed_document (deviceId : string) (limit : Z) (w : world)
    (d : gmap string value) :
  d ∈ collection w ->
  d !! "deviceId" = Some (VStr deviceId) ->
  ~ convertible d ->
  Z.of_nat (length (device_documents deviceId w)) <= limit ->
  status (fst (AppMain.GET_data deviceId (Some limit) w)) = 500.
Proof.
  intros Hd Hm Hbad Hlen.
  destruct (records (fst (AppMain.GET_data deviceId (Some limit) w)))
    as [items|] eqn:E; [exfalso|apply GET_data_status_records, E].
  apply GET_data_records_found in E as (Hl & _ & Hc).
  rewrite found_positive in Hc by exact Hl.
  rewrite take_ge in Hc
    by (rewrite (Permutation_length (sort_desc_perm _)); lia).
  assert (Hin : d ∈ sort_desc (device_documents deviceId w)).
  { rewrite (sort_desc_perm _). apply list_elem_of_In, List.filter_In.
    split; [apply list_elem_of_In, Hd|apply matches_deviceId, Hm]. }
  clear Hlen. induction Hc as [|doc item docs items Hci _ IH];
    [inversion Hin|].
  apply elem_of_cons in Hin as [->|Hin]; [|apply IH, Hin].
  apply Hbad. eapply converted_convertible, Hci.
Qed.

Lemma dates_of_convertible (docs : list (gmap string value)) :
  Forall convertible docs -> exists dts, map date_of docs = map Some dts.
Proof.
  induction 1 as [|d docs [_ [dt Hd]] _ [dts IH]]; [exists []; reflexivity|].
  exists (dt :: dts). simpl. rewrite Hd, IH. reflexivity.
Qed.

(** The records of a query are made of the latest documents of the
    device: when all its documents have an [_id] and a date, no
    document left out is later than one that was taken. *)
Theorem query_returns_latest (deviceId : string) (limit : Z) (w : world)
    (items : list (gmap string value)) :
  records (fst (AppMain.GET_data deviceId (Some limit) w)) = Some items ->
  Forall convertible (device_documents deviceId w) ->
  exists taken left,
    Forall2 converted taken items /\
    Permutation (taken ++ left) (device_documents deviceId w) /\
    forall c r dc dr,
      c ∈ taken -> r ∈ left -> date_of c = Some dc -> date_of r = Some dr ->
      dr <= dc.
Proof.
  intros E Hall. apply GET_data_records_found in E as (Hl & _ & Hc).
  rewrite found_positive in Hc by exact Hl.
  set (S := sort_desc (device_documents deviceId w)) in *.
  set (n := Z.to_nat limit) in *.
  exists (take n S), (drop n S). split; [exact Hc|]. split.
  { rewrite take_drop. apply sort_desc_perm. }
  assert (HS : Forall convertible S) by (unfold S; rewrite (sort_desc_perm _); exact Hall).
  destruct (dates_of_convertible S HS) as [dts Edts].
  pose proof (dates_descending S dts Edts (sort_desc_sorted _)) as Hdesc.
  assert (Hss : StronglySorted (fun a b : Z => b <= a) dts).
  { apply Sorted_StronglySorted; [|exact Hdesc]. intros a b c ? ?. lia. }
  rewrite <- (take_drop n dts) in Hss.
  intros c r dc dr Hc' Hr' Edc Edr.
  assert (Ht : dc ∈ take n dts).
  { apply (list_elem_of_fmap_2 date_of) in Hc'. rewrite Edc, fmap_take in Hc'.
    change (date_of <$> S) with (map date_of S) in Hc'.
    rewrite Edts in Hc'. change (map Some dts) with (Some <$> dts) in Hc'.
    rewrite <- fmap_take in Hc'.
    apply list_elem_of_fmap in Hc' as (x & [= ->] & Hx). exact Hx. }
  assert (Hd : dr ∈ drop n dts).
  { apply (list_elem_of_fmap_2 date_of) in Hr'. rewrite Edr, fmap_drop in Hr'.
    change (date_of <$> S) with (map date_of S) in Hr'.
    rewrite Edts in Hr'. change (map Some dts) with (Some <$> dts) in Hr'.
    rewrite <- fmap_drop in Hr'.
    apply list_elem_of_fmap in Hr' as (x & [= ->] & Hx). exact Hx. }
  exact (StronglySorted_app_1_elem_of _ _ _ _ _ Hss Ht Hd).
Qed.

End Query_properties.

(** * Ingest then query *)

Section Composition.
Context `{Platform}.

Lemma found_of_device_documents (deviceId : string) (limit : Z) (w1 w2 : world) :
  device_documents deviceId w1 = device_documents deviceId w2 ->
  found deviceId limit w1 = found deviceId limit w2.
Proof.
  unfold found, Motor.run_cursor, device_documents. simpl. intros ->. reflexivity.
Qed.

(** The worlds a POST request can leave: the collection as it was, or
    followed by the document of the request. *)
Lemma handle_post_collection (r : request) (t : Z) (w : world) :
  request_timestamp r = Some t ->
  collection (snd (handle r w)) = collection w \/
  exists dt, Datetime.of_epoch_millis t = Some dt /\
             fst (handle r w) = success_code r /\
             collection (snd (handle r w))
             = collection w ++ [request_document r dt (next_oid w)].
Proof.
  intros Ht. rewrite (handle_post_outcome r t w Ht). unfold post_outcome.
  destruct (Datetime.of_epoch_millis t) as [dt|]; [|left; reflexivity].
  destruct (forallb _ _); [|left; reflexivity].
  destruct (next_exchange_error w); [left; apply app_nil_r|].
  right. exists dt. repeat apply conj; reflexivity.
Qed.

Lemma handle_post_exchanges (r : request) (t : Z) (w : world) :
  request_timestamp r = Some t -> exchanges w = [] ->
  exchanges (snd (handle r w)) = [].
Proof.
  intros Ht Hx. rewrite (handle_post_outcome r t w Ht). unfold post_outcome.
  destruct (Datetime.of_epoch_millis t) as [dt|]; [|exact Hx].
  destruct (forallb _ _); [|exact Hx].
  destruct (next_exchange_error w); simpl; rewrite Hx; reflexivity.
Qed.

(** A POST for one device leaves the documents of every other device as
    they were, and with them, on a server that answers, the answer to a
    query for another device. *)
Theorem ingest_leaves_other_devices (r : request) (t : Z) (dev other : string)
    (limit : option Z) (w : world) :
  request_timestamp r = Some t ->
  request_device r = Some dev ->
  dev <> other ->
  device_documents other (snd (handle r w)) = device_documents other w /\
  (exchanges w = [] ->
   fst (AppMain.GET_data other limit (snd (handle r w)))
   = fst (AppMain.GET_data other limit w)).
Proof.
  intros Ht Hd Hne.
  assert (Hdocs : device_documents other (snd (handle r w)) = device_documents other w).
  { unfold device_documents.
    destruct (handle_post_collection r t w Ht) as [->|(dt & _ & _ & ->)];
      [reflexivity|].
    rewrite List.filter_app. simpl.
    destruct (Motor.matches other _) eqn:Em; [|apply app_nil_r].
    apply matches_deviceId in Em.
    rewrite (proj1 (proj2 (request_document_fields r t dev dt _ Ht Hd))) in Em.
    congruence. }
  split; [exact Hdocs|]. intros Hx.
  rewrite !GET_data_run. cbv zeta. unfold next_exchange_error.
  rewrite (handle_post_exchanges r t w Ht Hx), Hx.
  rewrite (found_of_device_documents other (default 100 limit) _ w Hdocs).
  destruct (default 100 limit <? 0); [reflexivity|].
  destruct (found other (default 100 limit) w) as [|doc docs]; [reflexivity|].
  rewrite (for_each_convert_result (doc :: docs) _ w). reflexivity.
Qed.


End Composition.

(** * Further runs on the reference platform *)

#[export] Instance convertible_dec (d : gmap string value) : Decision (convertible d).
Proof. unfold convertible. apply _. Defined.

Section Further_runs.
#[local] Existing Instance reference_platform.

(** A collection another writer has put a document into, its
    [timestamp] an [int]. *)
Definition foreign_document : gmap string value :=
  <["_id" := VObjectId 0x65a1f2c84b7d3e0012ab0001]>
    (<["deviceId" := VStr "dev-7"]> (<["timestamp" := VInt 1700000000000]> ∅)).

Definition foreign_world : world :=
  {| collection := [foreign_document]; next_oid := 0x65a1f2c84b7d3e0012ab34cd;
     exchanges := [] |}.

Definition traffic_request : request :=
  AppPostTraffic (sample_traffic "dev-2" 1700000015000).

Lemma round_trip_whole_seconds_witness :
  -62135596800 <= 1700000000 <= 253402300799 /\
  round_trip (1700000000 * 1000) = Some (1700000000 * 1000).
Proof.
  assert (Hk : -62135596800 <= 1700000000 <= 253402300799) by lia.
  split; [exact Hk|exact (round_trip_whole_seconds 1700000000 Hk)].
Defined.

Lemma ingest_exact_until_2242_witness :
  0 <= 1700000000123 < EXACT_MS /\
  Datetime.of_epoch_millis 1700000000123 = Some (1700000000123 * 1000) /\
  Datetime.bson_datetime (1700000000123 * 1000) = 1700000000123 * 1000.
Proof.
  assert (Ht : 0 <= 1700000000123 < EXACT_MS) by (unfold EXACT_MS; lia).
  split; [exact Ht|exact (ingest_exact_until_2242 1700000000123 Ht)].
Defined.

Lemma round_trip_within_one_witness :
  0 <= 1001 < EXACT_MS /\
  (round_trip 1001 = Some 1001 \/ round_trip 1001 = Some (1001 - 1)).
Proof.
  assert (Ht : 0 <= 1001 < EXACT_MS) by (unfold EXACT_MS; lia).
  split; [exact Ht|exact (round_trip_within_one 1001 Ht)].
Defined.

Lemma round_trip_mono_witness :
  round_trip 1001 = Some 1000 /\ round_trip 1003 = Some 1002 /\ 1001 <= 1003 /\
  1000 <= 1002.
Proof.
  assert (E1 : round_trip 1001 = Some 1000) by (vm_compute; reflexivity).
  assert (E2 : round_trip 1003 = Some 1002) by (vm_compute; reflexivity).
  assert (Ht : 1001 <= 1003) by lia.
  repeat apply conj; [exact E1|exact E2|exact Ht|].
  exact (round_trip_mono 1001 1003 1000 1002 E1 E2 Ht).
Defined.

Lemma post_accepted_iff_witness :
  request_timestamp traffic_request = Some 1700000015000 /\
  (fst (handle traffic_request empty_world) = success_code traffic_request <->
   MIN_MS <= 1700000015000 <= MAX_MS /\
   Forall (fun n => - 2 ^ 63 <= n < 2 ^ 63) (request_ints traffic_request) /\
   next_exchange_error empty_world = None).
Proof.
  assert (Ht : request_timestamp traffic_request = Some 1700000015000) by reflexivity.
  split; [exact Ht|exact (post_accepted_iff traffic_request _ empty_world Ht)].
Defined.

Lemma post_out_of_range_untouched_witness :
  request_timestamp (MainPostWeather (sample_weather "dev-1" 253402300800000))
  = Some 253402300800000 /\
  (253402300800000 < MIN_MS \/ MAX_MS < 253402300800000) /\
  handle (MainPostWeather (sample_weather "dev-1" 253402300800000)) mixed_world
  = (500, mixed_world).
Proof.
  assert (Ht : request_timestamp
                 (MainPostWeather (sample_weather "dev-1" 253402300800000))
               = Some 253402300800000) by reflexivity.
  assert (Hr : 253402300800000 < MIN_MS \/ MAX_MS < 253402300800000)
    by (right; unfold MAX_MS; lia).
  repeat apply conj; [exact Ht|exact Hr|].
  exact (post_out_of_range_untouched _ _ mixed_world Ht Hr).
Defined.

Lemma post_stored_document_witness :
  request_timestamp traffic_request = Some 1700000015000 /\
  request_device traffic_request = Some "dev-2" /\
  fst (handle traffic_request empty_world) = success_code traffic_request /\
  exists dt d,
    Datetime.of_epoch_millis 1700000015000 = Some dt /\
    collection (snd (handle traffic_request empty_world))
    = collection empty_world ++ [d] /\
    d !! "_id" = Some (VObjectId (next_oid empty_world)) /\
    d !! "deviceId" = Some (VStr "dev-2") /\
    d !! "timestamp" = Some (VDatetime (Datetime.bson_datetime dt)) /\
    d !! "values" = Some (VDict (request_values traffic_request)) /\
    d !! "data_type" = VStr <$> request_tag traffic_request.
Proof.
  assert (Ht : request_timestamp traffic_request = Some 1700000015000) by reflexivity.
  assert (Hd : request_device traffic_request = Some "dev-2") by reflexivity.
  assert (Hok : fst (handle traffic_request empty_world) = success_code traffic_request)
    by (vm_compute; reflexivity).
  repeat apply conj; [exact Ht|exact Hd|exact Hok|].
  exact (post_stored_document traffic_request _ _ empty_world Ht Hd Hok).
Defined.

Lemma query_only_requested_device_witness :
  records (fst (AppMain.GET_data "dev-1" (Some 2) mixed_world)) = Some mixed_items /\
  Forall (fun item => item !! "deviceId" = Some (VStr "dev-1")) mixed_items.
Proof.
  assert (E : records (fst (AppMain.GET_data "dev-1" (Some 2) mixed_world))
              = Some mixed_items)
    by (apply has_records_default; vm_compute; reflexivity).
  split; [exact E|].
  exact (query_only_requested_device "dev-1" (Some 2) mixed_world mixed_items E).
Defined.

Lemma query_count_witness :
  records (fst (AppMain.GET_data "dev-1" (Some 2) mixed_world)) = Some mixed_items /\
  mixed_items <> [] /\
  Z.of_nat (length mixed_items)
  = Z.min 2 (Z.of_nat (length (device_documents "dev-1" mixed_world))).
Proof.
  assert (E : records (fst (AppMain.GET_data "dev-1" (Some 2) mixed_world))
              = Some mixed_items)
    by (apply has_records_default; vm_compute; reflexivity).
  split; [exact E|].
  exact (query_count "dev-1" 2 mixed_world mixed_items E).
Defined.

Lemma mixed_world_convertible :
  Forall convertible (device_documents "dev-1" mixed_world).
Proof. apply (bool_decide_unpack _). vm_compute. exact I. Defined.

Lemma query_returns_latest_witness :
  records (fst (AppMain.GET_data "dev-1" (Some 2) mixed_world)) = Some mixed_items /\
  Forall convertible (device_documents "dev-1" mixed_world) /\
  exists taken left,
    Forall2 converted taken mixed_items /\
    Permutation (taken ++ left) (device_documents "dev-1" mixed_world) /\
    forall c r dc dr,
      c ∈ taken -> r ∈ left -> date_of c = Some dc -> date_of r = Some dr ->
      dr <= dc.
Proof.
  assert (E : records (fst (AppMain.GET_data "dev-1" (Some 2) mixed_world))
              = Some mixed_items)
    by (apply has_records_default; vm_compute; reflexivity).
  repeat apply conj; [exact E|exact mixed_world_convertible|].
  exact (query_returns_latest "dev-1" 2 mixed_world mixed_items E
           mixed_world_convertible).
Defined.


Lemma query_negative_limit_witness :
  -1 < 0 /\
  AppMain.GET_data "dev-1" (Some (-1)) mixed_world
  = ({| status := 500;
        body := Detail (str_exn (ValueError "length must be non-negative")) |},
     mixed_world).
Proof.
  assert (Hl : -1 < 0) by lia.
  split; [exact Hl|exact (query_negative_limit "dev-1" (-1) mixed_world Hl)].
Defined.

Lemma query_malformed_document_witness :
  foreign_document ∈ collection foreign_world /\
  foreign_document !! "deviceId" = Some (VStr "dev-7") /\
  ~ convertible foreign_document /\
  Z.of_nat (length (device_documents "dev-7" foreign_world)) <= 100 /\
  status (fst (AppMain.GET_data "dev-7" (Some 100) foreign_world)) = 500.
Proof.
  assert (Hd : foreign_document ∈ collection foreign_world) by (left).
  assert (Hm : foreign_document !! "deviceId" = Some (VStr "dev-7"))
    by (vm_compute; reflexivity).
  assert (Hb : ~ convertible foreign_document)
    by (apply (bool_decide_unpack _); vm_compute; exact I).
  assert (Hl : Z.of_nat (length (device_documents "dev-7" foreign_world)) <= 100)
    by (vm_compute; discriminate).
  repeat apply conj; [exact Hd|exact Hm|exact Hb|exact Hl|].
  exact (query_malformed_document "dev-7" 100 foreign_world foreign_document
           Hd Hm Hb Hl).
Defined.

Lemma ingest_leaves_other_devices_witness :
  request_timestamp traffic_request = Some 1700000015000 /\
  request_device traffic_request = Some "dev-2" /\
  "dev-2" <> "dev-1" /\
  exchanges mixed_world = [] /\
  device_documents "dev-1" (snd (handle traffic_request mixed_world))
  = device_documents "dev-1" mixed_world /\
  fst (AppMain.GET_data "dev-1" (Some 2) (snd (handle traffic_request mixed_world)))
  = fst (AppMain.GET_data "dev-1" (Some 2) mixed_world).
Proof.
  assert (Ht : request_timestamp traffic_request = Some 1700000015000) by reflexivity.
  assert (Hd : request_device traffic_request = Some "dev-2") by reflexivity.
  assert (Hne : "dev-2" <> "dev-1") by discriminate.
  assert (Hx : exchanges mixed_world = []) by (vm_compute; reflexivity).
  split; [exact Ht|]. split; [exact Hd|]. split; [exact Hne|]. split; [exact Hx|].
  split.
  - exact (proj1 (ingest_leaves_other_devices traffic_request _ "dev-2" "dev-1"
                    (Some 2) mixed_world Ht Hd Hne)).
  - exact (proj2 (ingest_leaves_other_devices traffic_request _ "dev-2" "dev-1"
                    (Some 2) mixed_world Ht Hd Hne) Hx).
Defined.


End Further_runs.


(** * The two modules side by side, and the timestamps of a query *)

Section Side_by_side.
Context `{Platform}.

Lemma stored_document_untag {V} `{BaseModel V} (data_type : string)
    (data : SensorData V) (dt : Z) (oid : N) :
  stored_document None data dt oid
  = delete "data_type" (stored_document (Some data_type) data dt oid).
Proof.
  unfold stored_document, sent_document, add_tag.
  rewrite <- fmap_delete, delete_insert_ne by done.
  rewrite delete_insert_eq, delete_id; [reflexivity|].
  unfold dict. by simplify_map_eq.
Qed.

(** The request [main.py] would get for the payload of a request to
    [app_main.py]; it has no traffic route. *)
Definition main_counterpart (r : request) : option request :=
  match r with
  | AppPostEnvironmental data => Some (MainPostEnvironmental data)
  | AppPostWeather data => Some (MainPostWeather data)
  | AppPostAirQuality data => Some (MainPostAirQuality data)
  | _ => None
  end.

(** On the same payload and state the two modules go through together
    or fail together, leave the same state but for the stored document,
    and the document [main.py] stores is the one [app_main.py] stores
    without its [data_type]. *)
Theorem modules_differ_by_data_type (r m : request) (w : world) :
  main_counterpart r = Some m ->
  (fst (handle r w) = 201 <-> fst (handle m w) = 200) /\
  (fst (handle r w) = 500 <-> fst (handle m w) = 500) /\
  next_oid (snd (handle r w)) = next_oid (snd (handle m w)) /\
  exchanges (snd (handle r w)) = exchanges (snd (handle m w)) /\
  (fst (handle r w) = 201 ->
   exists d, collection (snd (handle r w)) = collection w ++ [d] /\
             collection (snd (handle m w))
             = collection w ++ [delete "data_type" d]).
Proof.
  intros Hm.
  assert (Hr : exists t, request_timestamp r = Some t /\ request_timestamp m = Some t
                         /\ request_ints r = request_ints m
                         /\ success_code r = 201 /\ success_code m = 200
                         /\ forall dt oid, request_document m dt oid
                                           = delete "data_type" (request_document r dt oid)).
  { destruct r as [?|data|data|data|? ?|?|?|?]; try discriminate Hm;
      injection Hm as <-; exists (timestamp data);
      repeat apply conj; try reflexivity; intros dt oid;
      cbn [request_document request_tag]; apply stored_document_untag. }
  destruct Hr as (t & Ht & Ht' & Hi & Cr & Cm & Hdoc).
  rewrite (handle_post_outcome r t w Ht), (handle_post_outcome m t w Ht').
  unfold post_outcome. rewrite <- Hi, Cr, Cm.
  destruct (Datetime.of_epoch_millis t) as [dt|]; simpl;
    [|repeat apply conj; try reflexivity; try (split; intros; discriminate);
      intros; discriminate].
  destruct (forallb _ _); simpl;
    [|repeat apply conj; try reflexivity; try (split; intros; discriminate);
      intros; discriminate].
  destruct (next_exchange_error w); simpl;
    repeat apply conj; try reflexivity;
    try (split; intros; first [discriminate|reflexivity]);
    try (intros; discriminate).
  intros _. eexists. split; [reflexivity|]. rewrite Hdoc. reflexivity.
Qed.

(** Every record of a query shows the millisecond of the stored date it
    was made from, or the one before, when the dates of the device lie
    between 1970 and 2242. *)
Theorem query_timestamps_within_one (deviceId : string) (limit : option Z)
    (w : world) (items : list (gmap string value)) :
  records (fst (AppMain.GET_data deviceId limit w)) = Some items ->
  Forall (fun d => exists ms, 1 <= ms < EXACT_MS /\ date_of d = Some (ms * 1000))
         (device_documents deviceId w) ->
  Forall (fun item =>
            exists doc ms,
              doc ∈ collection w /\ date_of doc = Some (ms * 1000) /\
              (int_timestamp item = Some ms \/ int_timestamp item = Some (ms - 1)))
         items.
Proof.
  intros E Hall. apply GET_data_records in E as [_ Hc].
  pose proof (found_stored deviceId (default 100 limit) w) as Hs.
  pose proof (found_matches deviceId (default 100 limit) w) as Hm.
  revert Hs Hm.
  induction Hc as [|doc item docs items (id & dt & _ & Hts & ->) _ IH];
    intros Hs Hm; constructor.
  - assert (Hin : doc ∈ collection w) by (apply Hs; left).
    assert (Hd : doc ∈ device_documents deviceId w).
    { apply list_elem_of_In, List.filter_In. split; [apply list_elem_of_In, Hin|].
      apply matches_deviceId. inversion Hm; assumption. }
    rewrite Forall_forall in Hall. destruct (Hall doc Hd) as (ms & Hms & Hdate).
    exists doc, ms. split; [exact Hin|]. split; [exact Hdate|].
    unfold date_of in Hdate. rewrite Hts in Hdate. injection Hdate as ->.
    unfold int_timestamp. rewrite lookup_insert_eq.
    destruct (to_epoch_millis_within_one ms Hms) as [-> | ->]; auto.
  - apply IH; [intros d Hd; apply Hs; right; exact Hd|inversion Hm; assumption].
Qed.

End Side_by_side.


(** The dates of a list of documents are whole milliseconds between
    1970-01-01T00:00:00.001 and 2242, decided. *)
Definition millisecond_dates (l : list (gmap string value)) : bool :=
  forallb (fun d => match date_of d with
                    | Some dt => (dt mod 1000 =? 0) && (1000 <=? dt)
                                 && (dt <? EXACT_MS * 1000)
                    | None => false
                    end) l.

Lemma millisecond_dates_spec (l : list (gmap string value)) :
  millisecond_dates l = true ->
  Forall (fun d => exists ms, 1 <= ms < EXACT_MS /\ date_of d = Some (ms * 1000)) l.
Proof.
  unfold millisecond_dates. rewrite forallb_forall, Forall_forall.
  intros Hl d Hd. specialize (Hl d (proj1 (list_elem_of_In _ _) Hd)).
  destruct (date_of d) as [dt|]; [|discriminate Hl].
  apply andb_prop in Hl as [Hl H3]. apply andb_prop in Hl as [H1 H2].
  apply Z.eqb_eq in H1. apply Z.leb_le in H2. apply Z.ltb_lt in H3.
  exists (dt / 1000). split; [|f_equal]; unfold EXACT_MS in *.
  - pose proof (Z.div_mod dt 1000 ltac:(lia)). lia.
  - pose proof (Z.div_mod dt 1000 ltac:(lia)). lia.
Qed.

Section More_runs.
#[local] Existing Instance reference_platform.

Lemma modules_differ_by_data_type_witness :
  let r := AppPostWeather (sample_weather "dev-1" 1700000060000) in
  let m := MainPostWeather (sample_weather "dev-1" 1700000060000) in
  main_counterpart r = Some m /\
  fst (handle r mixed_world) = 201 /\
  fst (handle m mixed_world) = 200 /\
  next_oid (snd (handle r mixed_world)) = next_oid (snd (handle m mixed_world)) /\
  exchanges (snd (handle r mixed_world)) = exchanges (snd (handle m mixed_world)) /\
  exists d, collection (snd (handle r mixed_world)) = collection mixed_world ++ [d] /\
            collection (snd (handle m mixed_world))
            = collection mixed_world ++ [delete "data_type" d].
Proof.
  intros r m.
  assert (Hm : main_counterpart r = Some m) by reflexivity.
  assert (Hok : fst (handle r mixed_world) = 201) by (vm_compute; reflexivity).
  destruct (modules_differ_by_data_type r m mixed_world Hm)
    as (H201 & _ & Hoid & Hex & Hdoc).
  repeat apply conj;
    [exact Hm|exact Hok|exact (proj1 H201 Hok)|exact Hoid|exact Hex|exact (Hdoc Hok)].
Defined.

Lemma query_timestamps_within_one_witness :
  records (fst (AppMain.GET_data "dev-1" (Some 2) mixed_world)) = Some mixed_items /\
  Forall (fun d => exists ms, 1 <= ms < EXACT_MS /\ date_of d = Some (ms * 1000))
         (device_documents "dev-1" mixed_world) /\
  Forall (fun item =>
            exists doc ms,
              doc ∈ collection mixed_world /\ date_of doc = Some (ms * 1000) /\
              (int_timestamp item = Some ms \/ int_timestamp item = Some (ms - 1)))
         mixed_items.
Proof.
  assert (E : records (fst (AppMain.GET_data "dev-1" (Some 2) mixed_world))
              = Some mixed_items)
    by (apply has_records_default; vm_compute; reflexivity).
  assert (Hall : Forall (fun d => exists ms, 1 <= ms < EXACT_MS
                                             /\ date_of d = Some (ms * 1000))
                        (device_documents "dev-1" mixed_world))
    by (apply millisecond_dates_spec; vm_compute; reflexivity).
  repeat apply conj; [exact E|exact Hall|].
  exact (query_timestamps_within_one "dev-1" (Some 2) mixed_world mixed_items E Hall).
Defined.

End More_runs.

(** * The fields of a stored document *)

Section Stored_fields.
Context `{Platform}.

Lemma stored_document_dom {V} `{BaseModel V} (tag : option string)
    (data : SensorData V) (dt : Z) (oid : N) :
  dom (stored_document tag data dt oid)
  = ({["_id"; "deviceId"; "timestamp"; "values"]} : gset string)
    ∪ match tag with Some _ => {["data_type"]} | None => ∅ end.
Proof.
  unfold stored_document, sent_document, add_tag, dict.
  rewrite dom_fmap_L.
  destruct tag; rewrite ?dom_insert_L, dom_empty_L; set_solver.
Qed.

(** A stored document has the fields of the payload, the [_id] of the
    driver and, from [app_main.py], the category: nothing else. *)
Theorem post_stored_fields (r : request) (t : Z) (w : world) :
  request_timestamp r = Some t ->
  fst (handle r w) = success_code r ->
  exists d,
    collection (snd (handle r w)) = collection w ++ [d] /\
    dom d = ({["_id"; "deviceId"; "timestamp"; "values"]} : gset string)
            ∪ match request_tag r with Some _ => {["data_type"]} | None => ∅ end.
Proof.
  intros Ht. rewrite (handle_post_outcome r t w Ht). unfold post_outcome.
  assert (Hc : success_code r <> 500) by (destruct r; discriminate).
  destruct (Datetime.of_epoch_millis t) as [dt|];
    [|intros E; exfalso; apply Hc; symmetry; exact E].
  destruct (forallb _ _); [|intros E; exfalso; apply Hc; symmetry; exact E].
  destruct (next_exchange_error w); [intros E; exfalso; apply Hc; symmetry; exact E|].
  intros _. exists (request_document r dt (next_oid w)). split; [reflexivity|].
  destruct r as [?|?|?|?|? ?|?|?|?]; try discriminate Ht;
    cbn [request_document]; apply stored_document_dom.
Qed.

End Stored_fields.

Section Runs_of_fields.
#[local] Existing Instance reference_platform.

Lemma post_stored_fields_witness :
  request_timestamp traffic_request = Some 1700000015000 /\
  fst (handle traffic_request empty_world) = success_code traffic_request /\
  exists d,
    collection (snd (handle traffic_request empty_world))
    = collection empty_world ++ [d] /\
    dom d = ({["_id"; "deviceId"; "timestamp"; "values"]} : gset string)
            ∪ match request_tag traffic_request with
              | Some _ => {["data_type"]} | None => ∅ end.
Proof.
  assert (Ht : request_timestamp traffic_request = Some 1700000015000) by reflexivity.
  assert (Hok : fst (handle traffic_request empty_world) = success_code traffic_request)
    by (vm_compute; reflexivity).
  repeat apply conj; [exact Ht|exact Hok|].
  exact (post_stored_fields traffic_request _ empty_world Ht Hok).
Defined.

End Runs_of_fields.
